(** * custom-resource-helper: a shallow embedding of [custom-resource-helper.ts]

    The module exports one function, [customResourceHelper], which turns a
    factory of optional [onCreate] / [onUpdate] / [onDelete] handlers into an
    AWS Lambda entry point for CloudFormation custom resources.  The entry
    point races the dispatch of the event ([handleRessource]) against a
    deadline timer ([handleTimeout]) and reports the outcome to CloudFormation
    by an HTTP PUT ([sendResponse]).

    The embedding keeps the shape of the source:
    - JavaScript strings are sequences of UTF-16 code units, so that
      [String.prototype.length] and the UTF-8 size of a body are different
      functions;
    - [async] functions are computations in a small monad [Async] over
      virtual time (milliseconds): a computation started at a time yields the
      effects it performs, each with its time stamp, and the time and result
      of its settlement, if it settles at all;
    - what the program cannot decide (how long a handler takes and how it
      settles, what the network does with a PUT) is an input: a [Behaviour].

    What lies outside the source file is kept simple: a handler is known by
    the settlement of its promise and performs no request of its own, the
    methods of a logger return, timers are those of Node.js, and of two
    promises that settle in the same millisecond the first of the array wins
    the race. *)

From Stdlib Require Import ZArith NArith List Bool Ascii String DecimalString Lia.
Set Warnings "-register-all".
Import ListNotations.

Local Open Scope Z_scope.

(** ** JavaScript strings *)

(** A string value: its UTF-16 code units. *)
Definition jsstring : Type := list N.

Module Js.

(** A source literal (ASCII text). *)
Definition lit (s : string) : jsstring :=
  List.map N_of_ascii (list_ascii_of_string s).

(** [s.length] *)
Definition length (s : jsstring) : Z := Z.of_nat (List.length s).

(** Strict equality [===] of two strings. *)
Fixpoint eqb (s1 s2 : jsstring) : bool :=
  match s1, s2 with
  | [], [] => true
  | c1 :: r1, c2 :: r2 => N.eqb c1 c2 && eqb r1 r2
  | _, _ => false
  end.

(** The empty string is the only falsy string. *)
Definition truthy (s : jsstring) : bool :=
  match s with [] => false | _ :: _ => true end.

(** [a || b] where [a] is a string or [undefined]. *)
Definition or_else (a : option jsstring) (b : jsstring) : jsstring :=
  match a with
  | Some s => if truthy s then s else b
  | None => b
  end.

(** [s.includes(p)] *)
Fixpoint starts_with (p s : jsstring) : bool :=
  match p, s with
  | [], _ => true
  | c :: p', d :: s' => N.eqb c d && starts_with p' s'
  | _ :: _, [] => false
  end.

Fixpoint includes (s p : jsstring) : bool :=
  starts_with p s ||
  match s with
  | [] => false
  | _ :: s' => includes s' p
  end.

Definition is_high_surrogate (c : N) : bool :=
  (N.leb 55296 c && N.leb c 56319)%N.   (* D800 .. DBFF *)

Definition is_low_surrogate (c : N) : bool :=
  (N.leb 56320 c && N.leb c 57343)%N.   (* DC00 .. DFFF *)

(** Number of bytes of the UTF-8 encoding of a string, the encoding in which
    a string body travels: one byte below U+0080, two below U+0800, three for
    the rest of the basic plane (a lone surrogate is replaced by U+FFFD,
    three bytes as well), four for a surrogate pair. *)
Fixpoint utf8_length (s : jsstring) : Z :=
  match s with
  | [] => 0
  | c :: r =>
      if N.ltb c 128 then 1 + utf8_length r
      else if N.ltb c 2048 then 2 + utf8_length r
      else if is_high_surrogate c then
        match r with
        | d :: r' =>
            if is_low_surrogate d then 4 + utf8_length r'
            else 3 + utf8_length r
        | [] => 3
        end
      else 3 + utf8_length r
  end.

End Js.

(** A string literal of the source. *)
Definition str (s : string) : jsstring := Js.lit s.
Arguments str s%_string.

(** ** JSON values and [JSON.stringify] *)

Module JSON.

(** The values that occur in an envelope: strings, booleans, [null], arrays
    and objects.  An object is the list of its own enumerable properties in
    enumeration order.  Numbers (IEEE 754 doubles and their shortest decimal
    form) are left out of the development. *)
Inductive value : Type :=
| Null
| Bool (b : bool)
| String (s : jsstring)
| Array (items : list value)
| Object (properties : list (jsstring * value)).

(** The empty object literal [{}]. *)
Definition empty_object : list (jsstring * value) := [].

Definition hex_digit (n : N) : N :=
  if N.ltb n 10 then (48 + n)%N else (87 + n)%N.   (* '0'.. '9', 'a' .. 'f' *)

(** [\uXXXX], four lower-case hexadecimal digits. *)
Definition unicode_escape (c : N) : jsstring :=
  [92; 117;
   hex_digit (N.modulo (N.div c 4096) 16);
   hex_digit (N.modulo (N.div c 256) 16);
   hex_digit (N.modulo (N.div c 16) 16);
   hex_digit (N.modulo c 16)]%N.

(** One code unit that is not part of a surrogate pair, as QuoteJSONString
    writes it. *)
Definition quote_unit (c : N) : jsstring :=
  if N.eqb c 8 then str "\b"
  else if N.eqb c 9 then str "\t"
  else if N.eqb c 10 then str "\n"
  else if N.eqb c 12 then str "\f"
  else if N.eqb c 13 then str "\r"
  else if N.eqb c 34 then [92; 34]%N
  else if N.eqb c 92 then [92; 92]%N
  else if N.ltb c 32 then unicode_escape c
  else if Js.is_high_surrogate c || Js.is_low_surrogate c then unicode_escape c
  else [c].

(** The characters of a quoted string: a surrogate pair is copied, everything
    else goes through [quote_unit]. *)
Fixpoint quote_chars (s : jsstring) : jsstring :=
  match s with
  | [] => []
  | c :: r =>
      if Js.is_high_surrogate c then
        match r with
        | d :: r' =>
            if Js.is_low_surrogate d then c :: d :: quote_chars r'
            else quote_unit c ++ quote_chars r
        | [] => quote_unit c
        end
      else quote_unit c ++ quote_chars r
  end.

Definition quote (s : jsstring) : jsstring :=
  [34%N] ++ quote_chars s ++ [34%N].

(** Elements separated by commas. *)
Fixpoint join (parts : list jsstring) : jsstring :=
  match parts with
  | [] => []
  | [p] => p
  | p :: rest => p ++ [44%N] ++ join rest
  end.

(** [JSON.stringify(v)] without indentation. *)
Fixpoint stringify (v : value) : jsstring :=
  match v with
  | Null => str "null"
  | Bool true => str "true"
  | Bool false => str "false"
  | String s => quote s
  | Array items => [91%N] ++ join (List.map stringify items) ++ [93%N]
  | Object properties =>
      [123%N] ++
      join (List.map (fun kv => quote (fst kv) ++ [58%N] ++ stringify (snd kv))
                     properties) ++
      [125%N]
  end.

(** The property names of an object, in order. *)
Definition keys (v : value) : list jsstring :=
  match v with
  | Object properties => List.map fst properties
  | _ => []
  end.

(** [v[k]], the first property named [k]. *)
Fixpoint lookup (k : jsstring) (properties : list (jsstring * value)) : option value :=
  match properties with
  | [] => None
  | (k', v) :: rest => if Js.eqb k k' then Some v else lookup k rest
  end.

Definition get (v : value) (k : jsstring) : option value :=
  match v with
  | Object properties => lookup k properties
  | _ => None
  end.

End JSON.

(** ** The values the program handles *)

(** [CloudFormationCustomResourceEvent].  [RequestType] is kept as the string
    that arrives: the [switch] of [handleRessource] has a [default] branch.
    [PhysicalResourceId] is present on Update and Delete events,
    [OldResourceProperties] on Update events. *)
Record Event : Type := {
  RequestType : jsstring;
  ServiceToken : jsstring;
  ResponseURL : jsstring;
  StackId : jsstring;
  RequestId : jsstring;
  LogicalResourceId : jsstring;
  ResourceType : jsstring;
  PhysicalResourceId : option jsstring;
  ResourceProperties : list (jsstring * JSON.value);
  OldResourceProperties : option (list (jsstring * JSON.value))
}.

(** The Lambda [Context]: the two members the module reads.
    [getRemainingTimeInMillis] is a method; its result depends on the
    (virtual) time of the call. *)
Record Context : Type := {
  logStreamName : jsstring;
  getRemainingTimeInMillis : Z -> Z
}.

(** The two values without properties. *)
Inductive Nothing : Type := Undefined | Null.

(** What a [throw] or a rejection carries: any value.  Reading a property of
    [undefined] or [null] raises a TypeError ([Nullish]); on every other value
    [message] reads the property, a string here, or [undefined]
    ([ErrorObject]). *)
Inductive Thrown : Type :=
| Nullish (v : Nothing)
| ErrorObject (message : option jsstring).

(** [new Error(msg)] *)
Definition Error (msg : jsstring) : Thrown := ErrorObject (Some msg).

(** The TypeError of reading [message] on [undefined] or on [null]; the text,
    which names the value, is V8's. *)
Definition TypeError_message (v : Nothing) : Thrown :=
  Error (str "Cannot read properties of "
         ++ match v with
            | Undefined => str "undefined"
            | Null => str "null"
            end
         ++ str " (reading 'message')").

(** How a promise settles. *)
Inductive Result (A : Type) : Type :=
| Resolved (a : A)
| Rejected (e : Thrown).
Arguments Resolved {A} a.
Arguments Rejected {A} e.

(** What the environment does with an asynchronous request: it never answers,
    or it settles the promise after [latency] milliseconds. *)
Inductive Behaviour (A : Type) : Type :=
| Pending
| Settles (latency : N) (r : Result A).
Arguments Pending {A}.
Arguments Settles {A} latency r.

(** Modelled from the spec: the module [./log-factory] is not part of the
    sources at hand.  A [Logger] offers [debug], [info] and [error]; the core
    consumes it and never implements it, and a call of one of its methods is
    an effect that returns.  [defaultLogFactory] builds the default logger
    from the event. *)
Inductive Logger : Type :=
| DefaultLogger (event : Event)
| SuppliedLogger (id : N).

Definition defaultLogFactory (event : Event) : Logger := DefaultLogger event.

(** A caller's [LogFactory]; it is called inside the [try] and may throw. *)
Definition LogFactory : Type := Event -> Context -> Result Logger.

(** [ResourceHandlerReturn] *)
Record ResourceHandlerReturn : Type := {
  physicalResourceId : jsstring;
  responseData : option (list (jsstring * JSON.value))
}.

Definition OnCreateHandler : Type :=
  Event -> Context -> Logger -> Behaviour ResourceHandlerReturn.
Definition OnUpdateHandler : Type :=
  Event -> Context -> Logger -> Behaviour ResourceHandlerReturn.
Definition OnDeleteHandler : Type :=
  Event -> Context -> Logger -> Behaviour unit.

(** [ResourceHandler]: three optional handlers. *)
Record ResourceHandler : Type := {
  onCreate : option OnCreateHandler;
  onUpdate : option OnUpdateHandler;
  onDelete : option OnDeleteHandler
}.

(** [ResourceHandlerFactory]: a handler set or a promise of one. *)
Definition ResourceHandlerFactory : Type := Logger -> Behaviour ResourceHandler.

(** ** Effects *)

Inductive LogLevel : Type := LevelDebug | LevelInfo | LevelError.

Inductive LogArgument : Type :=
| LogString (s : jsstring)
| LogEvent (event : Event)
| LogThrown (e : Thrown).

(** The request handed to [axios.put]: target, body and the two headers. *)
Record PutRequest : Type := {
  put_url : jsstring;
  put_body : jsstring;
  content_type : jsstring;
  content_length : Z
}.

(** [response.status] is all the module reads of an answer. *)
Record AxiosResponse : Type := { status : N }.

Inductive HandlerName : Type := OnCreate | OnUpdate | OnDelete.

Inductive Effect : Type :=
| Log (logger : Logger) (level : LogLevel) (arg : LogArgument)
| Put (request : PutRequest)
| Invoke (handler : HandlerName)
| SetTimeout (delay : Z).

(** The network: what happens to a PUT issued at a given time. *)
Definition Network : Type := Z -> PutRequest -> Behaviour AxiosResponse.

(** ** Asynchronous computations over virtual time *)

(** The run of a computation: the effects it performs, each with the time at
    which it is performed, and the time and result of its settlement ([None]
    for a promise that stays pending).  The trace follows the program text,
    the time stamps give the chronology.  A run has all the effects of the
    program, also those that follow the settlement of its promise; whether the
    host keeps the process running until then is not the module's business. *)
Record Run (A : Type) : Type := {
  trace : list (Z * Effect);
  settled : option (Z * Result A)
}.
Arguments trace {A} r.
Arguments settled {A} r.

(** An [async] computation, to be started at a time. *)
Definition Async (A : Type) : Type := Z -> Run A.

Definition ret {A} (a : A) : Async A :=
  fun t => {| trace := []; settled := Some (t, Resolved a) |}.

Definition throw {A} (e : Thrown) : Async A :=
  fun t => {| trace := []; settled := Some (t, Rejected e) |}.

(** Sequencing: the continuation starts when the first part resolves. *)
Definition bind {A B} (p : Async A) (k : A -> Async B) : Async B :=
  fun t =>
    let r := p t in
    match settled r with
    | Some (t', Resolved a) =>
        let r' := k a t' in
        {| trace := trace r ++ trace r'; settled := settled r' |}
    | Some (t', Rejected e) =>
        {| trace := trace r; settled := Some (t', Rejected e) |}
    | None => {| trace := trace r; settled := None |}
    end.

(** [try { p } catch (e) { h e }] *)
Definition try_catch {A} (p : Async A) (h : Thrown -> Async A) : Async A :=
  fun t =>
    let r := p t in
    match settled r with
    | Some (t', Rejected e) =>
        let r' := h e t' in
        {| trace := trace r ++ trace r'; settled := settled r' |}
    | _ => r
    end.

(** [await] of something the environment settles. *)
Definition await {A} (b : Behaviour A) : Async A :=
  fun t =>
    {| trace := [];
       settled := match b with
                  | Pending => None
                  | Settles latency r => Some (t + Z.of_N latency, r)
                  end |}.

Definition perform (e : Effect) : Async unit :=
  fun t => {| trace := [(t, e)]; settled := Some (t, Resolved tt) |}.

Declare Scope async_scope.
Delimit Scope async_scope with async.
Notation "x <- p ;; k" := (bind p (fun x => k))
  (at level 100, p at next level, right associativity) : async_scope.
Notation "p ;; k" := (bind p (fun _ => k))
  (at level 100, right associativity) : async_scope.
Notation "' pat <- p ;; k" := (bind p (fun x => match x with pat => k end))
  (at level 100, pat pattern, p at next level, right associativity) : async_scope.
Open Scope async_scope.

(** The earlier of two settlements; at equal times the first one, as
    [Promise.race] takes the first settled promise of its array. *)
Definition first_settled {A} (a b : option (Z * Result A)) : option (Z * Result A) :=
  match a, b with
  | Some (ta, ra), Some (tb, rb) => if ta <=? tb then Some (ta, ra) else Some (tb, rb)
  | Some s, None => Some s
  | None, b => b
  end.

(** [Promise.race([p, q])]: both computations are started and both run to
    their end, nothing cancels the slower one; the race settles as the first
    of them. *)
Definition race {A} (p q : Async A) : Async A :=
  fun t =>
    let rp := p t in
    let rq := q t in
    {| trace := trace rp ++ trace rq;
       settled := first_settled (settled rp) (settled rq) |}.

(** Node.js timers: a delay below 1 or above 2^31 - 1 is set to 1. *)
Definition TIMEOUT_MAX : Z := 2147483647.

Definition timer_delay (delay : Z) : Z :=
  if (1 <=? delay) && (delay <=? TIMEOUT_MAX) then delay else 1.

(** [new Promise(resolve => setTimeout(resolve, delay))] *)
Definition sleep (delay : Z) : Async unit :=
  fun t =>
    {| trace := [(t, SetTimeout delay)];
       settled := Some (t + timer_delay delay, Resolved tt) |}.

(** The methods of a logger. *)
Definition logger_debug (l : Logger) (a : LogArgument) : Async unit := perform (Log l LevelDebug a).
Definition logger_info (l : Logger) (a : LogArgument) : Async unit := perform (Log l LevelInfo a).
Definition logger_error (l : Logger) (a : LogArgument) : Async unit := perform (Log l LevelError a).

(** A number in a template literal. *)
Definition number_to_string (n : N) : jsstring :=
  str (NilZero.string_of_uint (N.to_uint n)).

(** ** The module *)

Inductive ResponseStatus : Type := SUCCESS | FAILED.

Definition status_string (s : ResponseStatus) : jsstring :=
  match s with
  | SUCCESS => str "SUCCESS"
  | FAILED => str "FAILED"
  end.

(** [SendResponseDetails]: all members but the status are optional. *)
Module Details.
Record t : Type := make {
  responseStatus : ResponseStatus;
  responseData : option (list (jsstring * JSON.value));
  physicalResourceId : option jsstring;
  reason : option jsstring
}.
End Details.

(** The object literal given to [JSON.stringify] in [sendResponse]. *)
Definition responseObject (event : Event) (context : Context) (d : Details.t) : JSON.value :=
  JSON.Object
    [ (str "Status", JSON.String (status_string (Details.responseStatus d)));
      (str "Reason",
       JSON.String
         (Js.or_else (Details.reason d)
            (str "See the details in CloudWatch Log Stream: " ++ logStreamName context)));
      (str "PhysicalResourceId",
       JSON.String (Js.or_else (Details.physicalResourceId d) (str "None")));
      (str "StackId", JSON.String (StackId event));
      (str "RequestId", JSON.String (RequestId event));
      (str "LogicalResourceId", JSON.String (LogicalResourceId event));
      (str "Data",
       JSON.Object
         (match Details.responseData d with
          | Some data => data
          | None => JSON.empty_object
          end)) ].

Section Helper.

Variable network : Network.

(** [axios.put(url, body, { headers })] *)
Definition axios_put (request : PutRequest) : Async AxiosResponse :=
  fun t =>
    {| trace := [(t, Put request)];
       settled := match network t request with
                  | Pending => None
                  | Settles latency r => Some (t + Z.of_N latency, r)
                  end |}.

Definition sendResponse
  (event : Event) (context : Context) (sendResponseDetails : Details.t)
  (logger : Logger) : Async unit :=
  let responseBody := JSON.stringify (responseObject event context sendResponseDetails) in
  logger_debug logger (LogString (str "Response body:")) ;;
  logger_debug logger (LogString responseBody) ;;
  let responseUrl := ResponseURL event in
  logger_debug logger (LogString (str "CFN response URL: " ++ responseUrl)) ;;
  try_catch
    (response <- axios_put {| put_url := responseUrl;
                              put_body := responseBody;
                              content_type := [];
                              content_length := Js.length responseBody |} ;;
     logger_info logger
       (LogString (str "CloudFormation returned status code: "
                   ++ number_to_string (status response))))
    (fun error =>
       logger_error logger (LogString (str "sendResponse(...) failed executing axios.put:")) ;;
       logger_error logger (LogThrown error) ;;
       throw error).

(** The call of a user handler and the [await] of its promise. *)
Definition call {A} (name : HandlerName) (b : Behaviour A) : Async A :=
  perform (Invoke name) ;; await b.

Definition handleRessource
  (event : Event) (context : Context) (resourceHandler : ResourceHandler)
  (logger : Logger) : Async unit :=
  logger_debug logger (LogEvent event) ;;
  let physicalResourceId0 := str "None" in
  let responseData0 := JSON.empty_object in
  let onCreate := onCreate resourceHandler in
  let onUpdate := onUpdate resourceHandler in
  let onDelete := onDelete resourceHandler in
  '(physicalResourceId, responseData) <-
    (if Js.eqb (RequestType event) (str "Create") then
       match onCreate with
       | Some onCreate =>
           r <- call OnCreate (onCreate event context logger) ;;
           ret (physicalResourceId r,
                match responseData r with Some data => data | None => JSON.empty_object end)
       | None => ret (physicalResourceId0, responseData0)
       end
     else if Js.eqb (RequestType event) (str "Update") then
       match onUpdate with
       | Some onUpdate =>
           r <- call OnUpdate (onUpdate event context logger) ;;
           ret (physicalResourceId r,
                match responseData r with Some data => data | None => JSON.empty_object end)
       | None => ret (physicalResourceId0, responseData0)
       end
     else if Js.eqb (RequestType event) (str "Delete") then
       match onDelete with
       | Some onDelete =>
           call OnDelete (onDelete event context logger) ;;
           ret (physicalResourceId0, responseData0)
       | None => ret (physicalResourceId0, responseData0)
       end
     else throw (Error (str "Invalid RequestType received"))) ;;
  let responseDetails :=
    {| Details.responseStatus := SUCCESS;
       Details.reason := Some (str "OK");
       Details.responseData := Some responseData;
       Details.physicalResourceId := Some physicalResourceId |} in
  sendResponse event context responseDetails logger.

Definition handleTimeout (context : Context) (logger : Logger) : Async unit :=
  fun t =>
    (sleep (getRemainingTimeInMillis context t - 3000) ;;
     logger_error logger
       (LogString (str "Execution is about to time out, sending failure message")) ;;
     throw (Error (str "Execution timed out"))) t.

(** [error.message] in the [catch] block: a TypeError on [undefined] and
    [null]. *)
Definition error_message (error : Thrown) : Async (option jsstring) :=
  match error with
  | Nullish v => throw (TypeError_message v)
  | ErrorObject message => ret message
  end.

Definition customResourceHelper
  (resourceHandlerFactory : ResourceHandlerFactory) (logFactory : option LogFactory)
  (event : Event) (context : Context) : Async unit :=
  (* [let logger], reassigned in the [try] when the log factory returns *)
  let logger0 := defaultLogFactory event in
  let replaced :=
    match logFactory with
    | Some logFactory => logFactory event context
    | None => Resolved logger0
    end in
  let logger := match replaced with Resolved l => l | Rejected _ => logger0 end in
  try_catch
    (match replaced with Rejected e => throw e | Resolved _ => ret tt end ;;
     resourceHandler <- await (resourceHandlerFactory logger) ;;
     race (handleRessource event context resourceHandler logger)
          (handleTimeout context logger))
    (fun error =>
       logger_error logger (LogThrown error) ;;
       message <- error_message error ;;
       let responseDetails :=
         {| Details.responseStatus := FAILED;
            Details.reason := Some (Js.or_else message (str "Internal Error"));
            Details.responseData := None;
            Details.physicalResourceId := None |} in
       sendResponse event context responseDetails logger).

End Helper.

(** ** Reading a run *)

(** The PUT requests of a trace, with their times. *)
Fixpoint puts (tr : list (Z * Effect)) : list (Z * PutRequest) :=
  match tr with
  | [] => []
  | (t, Put request) :: rest => (t, request) :: puts rest
  | _ :: rest => puts rest
  end.

(** The handlers invoked in a trace. *)
Fixpoint invocations (tr : list (Z * Effect)) : list HandlerName :=
  match tr with
  | [] => []
  | (_, Invoke h) :: rest => h :: invocations rest
  | _ :: rest => invocations rest
  end.

(** The arguments of [logger.error] in a trace. *)
Fixpoint errors_logged (tr : list (Z * Effect)) : list (Z * LogArgument) :=
  match tr with
  | [] => []
  | (t, Log _ LevelError a) :: rest => (t, a) :: errors_logged rest
  | _ :: rest => errors_logged rest
  end.

(** The delays of the timers armed in a trace. *)
Fixpoint timers (tr : list (Z * Effect)) : list (Z * Z) :=
  match tr with
  | [] => []
  | (t, SetTimeout delay) :: rest => (t, delay) :: timers rest
  | _ :: rest => timers rest
  end.

(** ** Envelopes and requests *)

(** The details [handleRessource] hands to [sendResponse]. *)
Definition success_details (physicalResourceId : jsstring)
  (responseData : list (jsstring * JSON.value)) : Details.t :=
  {| Details.responseStatus := SUCCESS;
     Details.reason := Some (str "OK");
     Details.responseData := Some responseData;
     Details.physicalResourceId := Some physicalResourceId |}.

(** The details of the [catch] block of the entry point. *)
Definition failed_details (reason : jsstring) : Details.t :=
  {| Details.responseStatus := FAILED;
     Details.reason := Some reason;
     Details.responseData := None;
     Details.physicalResourceId := None |}.

(** An envelope on the wire: the JSON text of an object with the seven
    members of the CloudFormation response, in the order of the source. *)
Definition envelope (event : Event) (s : ResponseStatus) (reason physicalResourceId : jsstring)
  (data : list (jsstring * JSON.value)) : jsstring :=
  JSON.stringify
    (JSON.Object
       [ (str "Status", JSON.String (status_string s));
         (str "Reason", JSON.String reason);
         (str "PhysicalResourceId", JSON.String physicalResourceId);
         (str "StackId", JSON.String (StackId event));
         (str "RequestId", JSON.String (RequestId event));
         (str "LogicalResourceId", JSON.String (LogicalResourceId event));
         (str "Data", JSON.Object data) ]).

(** The two envelopes of the module. *)
Definition success_envelope (event : Event) (physicalResourceId : jsstring)
  (data : list (jsstring * JSON.value)) : jsstring :=
  envelope event SUCCESS (str "OK") physicalResourceId data.

Definition failed_envelope (event : Event) (reason : jsstring) : jsstring :=
  envelope event FAILED reason (str "None") JSON.empty_object.

(** The request that carries a body to the response URL of an event. *)
Definition request_for (event : Event) (body : jsstring) : PutRequest :=
  {| put_url := ResponseURL event;
     put_body := body;
     content_type := [];
     content_length := Js.length body |}.

(** The request of a call of [sendResponse]. *)
Definition request (event : Event) (context : Context) (d : Details.t) : PutRequest :=
  request_for event (JSON.stringify (responseObject event context d)).

(** The reason the [catch] block of the entry point reports for an error
    object. *)
Definition failure_reason (message : option jsstring) : jsstring :=
  Js.or_else message (str "Internal Error").

(** The status an envelope announces: its text begins with the [Status]
    member. *)
Definition status_prefix (s : ResponseStatus) : jsstring :=
  [123%N] ++ JSON.quote (str "Status") ++ [58%N] ++ JSON.quote (status_string s) ++ [44%N].

Definition status_of (body : jsstring) : option ResponseStatus :=
  if Js.starts_with (status_prefix SUCCESS) body then Some SUCCESS
  else if Js.starts_with (status_prefix FAILED) body then Some FAILED
  else None.

Definition has_status (s : ResponseStatus) (p : Z * PutRequest) : bool :=
  match status_of (put_body (snd p)), s with
  | Some SUCCESS, SUCCESS => true
  | Some FAILED, FAILED => true
  | _, _ => false
  end.

(** The PUTs of a trace whose envelope has status [s]. *)
Definition sent_with (s : ResponseStatus) (tr : list (Z * Effect)) : list (Z * PutRequest) :=
  List.filter (has_status s) (puts tr).

(** ** The stages of an invocation *)

(** The logger in use after the [if (logFactory)] of the entry point. *)
Definition active_logger (logFactory : option LogFactory) (event : Event)
  (context : Context) : Result Logger :=
  match logFactory with
  | Some logFactory => logFactory event context
  | None => Resolved (defaultLogFactory event)
  end.

(** How a call of [sendResponse] at time [t] settles: as the network settles
    its PUT. *)
Definition delivery (network : Network) (event : Event) (context : Context)
  (d : Details.t) (t : Z) : option (Z * Result unit) :=
  match network t (request event context d) with
  | Pending => None
  | Settles latency (Resolved _) => Some (t + Z.of_N latency, Resolved tt)
  | Settles latency (Rejected e) => Some (t + Z.of_N latency, Rejected e)
  end.

(** What the [switch] of [handleRessource] comes to for an event and a
    handler set: no case matches, the case has no handler, or a handler is
    called, whose promise is awaited and whose result is destructured. *)
Inductive Selection : Type :=
| InvalidRequestType
| NoHandler
| Handler (name : HandlerName)
          (outcome : Behaviour (jsstring * list (jsstring * JSON.value))).

(** [({ physicalResourceId, responseData = {} } = await handler(...))] *)
Definition destructure (b : Behaviour ResourceHandlerReturn) :
  Behaviour (jsstring * list (jsstring * JSON.value)) :=
  match b with
  | Pending => Pending
  | Settles l (Rejected e) => Settles l (Rejected e)
  | Settles l (Resolved r) =>
      Settles l (Resolved (physicalResourceId r,
                           match responseData r with
                           | Some data => data
                           | None => JSON.empty_object
                           end))
  end.

(** [await onDelete(...)]: the two variables keep their initial values. *)
Definition keep_defaults (b : Behaviour unit) :
  Behaviour (jsstring * list (jsstring * JSON.value)) :=
  match b with
  | Pending => Pending
  | Settles l (Rejected e) => Settles l (Rejected e)
  | Settles l (Resolved _) => Settles l (Resolved (str "None", JSON.empty_object))
  end.

(** The [switch] of [handleRessource]. *)
Definition select (event : Event) (context : Context) (rh : ResourceHandler)
  (logger : Logger) : Selection :=
  if Js.eqb (RequestType event) (str "Create") then
    match onCreate rh with
    | Some h => Handler OnCreate (destructure (h event context logger))
    | None => NoHandler
    end
  else if Js.eqb (RequestType event) (str "Update") then
    match onUpdate rh with
    | Some h => Handler OnUpdate (destructure (h event context logger))
    | None => NoHandler
    end
  else if Js.eqb (RequestType event) (str "Delete") then
    match onDelete rh with
    | Some h => Handler OnDelete (keep_defaults (h event context logger))
    | None => NoHandler
    end
  else InvalidRequestType.

(** The run of [handleRessource] started at [t], by what its [switch] comes
    to. *)
Definition dispatch_run (network : Network) (event : Event) (context : Context)
  (logger : Logger) (sel : Selection) (t : Z) : Run unit :=
  let entry := (t, Log logger LevelDebug (LogEvent event)) in
  match sel with
  | InvalidRequestType =>
      {| trace := [entry];
         settled := Some (t, Rejected (Error (str "Invalid RequestType received"))) |}
  | NoHandler =>
      let r := sendResponse network event context
                 (success_details (str "None") JSON.empty_object) logger t in
      {| trace := entry :: trace r; settled := settled r |}
  | Handler name Pending =>
      {| trace := [entry; (t, Invoke name)]; settled := None |}
  | Handler name (Settles l (Rejected e)) =>
      {| trace := [entry; (t, Invoke name)];
         settled := Some (t + Z.of_N l, Rejected e) |}
  | Handler name (Settles l (Resolved (pid, data))) =>
      let r := sendResponse network event context (success_details pid data) logger
                 (t + Z.of_N l) in
      {| trace := entry :: (t, Invoke name) :: trace r; settled := settled r |}
  end.

(** The PUT of the dispatcher, by what its [switch] comes to. *)
Definition dispatch_puts (event : Event) (context : Context) (sel : Selection) (t : Z) :
  list (Z * PutRequest) :=
  match sel with
  | NoHandler =>
      [(t, request event context (success_details (str "None") JSON.empty_object))]
  | Handler _ (Settles l (Resolved (pid, data))) =>
      [(t + Z.of_N l, request event context (success_details pid data))]
  | _ => []
  end.

(** The settlement of the dispatcher. *)
Definition dispatch_settled (network : Network) (event : Event) (context : Context)
  (sel : Selection) (t : Z) : option (Z * Result unit) :=
  match sel with
  | InvalidRequestType => Some (t, Rejected (Error (str "Invalid RequestType received")))
  | NoHandler =>
      delivery network event context (success_details (str "None") JSON.empty_object) t
  | Handler _ Pending => None
  | Handler _ (Settles l (Rejected e)) => Some (t + Z.of_N l, Rejected e)
  | Handler _ (Settles l (Resolved (pid, data))) =>
      delivery network event context (success_details pid data) (t + Z.of_N l)
  end.

(** The rejection of the deadline guard. *)
Definition timeout_error : Thrown := Error (str "Execution timed out").

(** The time at which the timer of [handleTimeout], armed at [t], fires. *)
Definition deadline (context : Context) (t : Z) : Z :=
  t + timer_delay (getRemainingTimeInMillis context t - 3000).

(** The settlement of the race started at [t]. *)
Definition race_settled (network : Network) (event : Event) (context : Context)
  (sel : Selection) (t : Z) : option (Z * Result unit) :=
  first_settled (dispatch_settled network event context sel t)
                (Some (deadline context t, Rejected timeout_error)).

(** The [catch] block of the entry point. *)
Definition catch_block (network : Network) (event : Event) (context : Context)
  (logger : Logger) (error : Thrown) : Async unit :=
  logger_error logger (LogThrown error) ;;
  message <- error_message error ;;
  sendResponse network event context
    (failed_details (Js.or_else message (str "Internal Error"))) logger.

(** The run of the [catch] block entered at [t] with [error]. *)
Definition catch_run (network : Network) (event : Event) (context : Context)
  (logger : Logger) (error : Thrown) (t : Z) : Run unit :=
  let entry := (t, Log logger LevelError (LogThrown error)) in
  match error with
  | Nullish v =>
      {| trace := [entry]; settled := Some (t, Rejected (TypeError_message v)) |}
  | ErrorObject message =>
      let r := sendResponse network event context
                 (failed_details (failure_reason message)) logger t in
      {| trace := entry :: trace r; settled := settled r |}
  end.

(** The run of a [try] whose body ran as [r]. *)
Definition caught (network : Network) (event : Event) (context : Context)
  (logger : Logger) (r : Run unit) : Run unit :=
  match settled r with
  | Some (t, Rejected e) =>
      let c := catch_run network event context logger e t in
      {| trace := trace r ++ trace c; settled := settled c |}
  | _ => r
  end.

(** The PUT of the [catch] block, by how the [try] body settled. *)
Definition catch_puts (event : Event) (context : Context)
  (body : option (Z * Result unit)) : list (Z * PutRequest) :=
  match body with
  | Some (t, Rejected (ErrorObject message)) =>
      [(t, request event context (failed_details (failure_reason message)))]
  | _ => []
  end.

(** The settlement of a [try] whose body settled as [body]. *)
Definition catch_settled (network : Network) (event : Event) (context : Context)
  (body : option (Z * Result unit)) : option (Z * Result unit) :=
  match body with
  | Some (t, Rejected (Nullish v)) => Some (t, Rejected (TypeError_message v))
  | Some (t, Rejected (ErrorObject message)) =>
      delivery network event context (failed_details (failure_reason message)) t
  | other => other
  end.

(** ** Conditions on the inputs *)

(** The request type of an event is none of the three the [switch] knows. *)
Definition invalid_request_type (event : Event) : Prop :=
  RequestType event <> str "Create" /\
  RequestType event <> str "Update" /\
  RequestType event <> str "Delete".

(** The handler that the request type of the event selects is registered and
    rejects with [e] after [l] milliseconds. *)
Definition matched_handler_rejects (event : Event) (context : Context)
  (rh : ResourceHandler) (logger : Logger) (l : N) (e : Thrown) : Prop :=
  (RequestType event = str "Create" /\
   exists h, onCreate rh = Some h /\ h event context logger = Settles l (Rejected e)) \/
  (RequestType event = str "Update" /\
   exists h, onUpdate rh = Some h /\ h event context logger = Settles l (Rejected e)) \/
  (RequestType event = str "Delete" /\
   exists h, onDelete rh = Some h /\ h event context logger = Settles l (Rejected e)).

(** ** Further readings of a run *)

(** The loggers whose methods are called in a trace. *)
Fixpoint loggers (tr : list (Z * Effect)) : list Logger :=
  match tr with
  | [] => []
  | (_, Log l _ _) :: rest => l :: loggers rest
  | _ :: rest => loggers rest
  end.

(** The arguments of [logger.info] in a trace. *)
Fixpoint infos_logged (tr : list (Z * Effect)) : list (Z * LogArgument) :=
  match tr with
  | [] => []
  | (t, Log _ LevelInfo a) :: rest => (t, a) :: infos_logged rest
  | _ :: rest => infos_logged rest
  end.

(** The logger of the [catch] block: the one of the log factory if it
    returned one, the default one otherwise. *)
Definition logger_in_use (logFactory : option LogFactory) (event : Event)
  (context : Context) : Logger :=
  match active_logger logFactory event context with
  | Resolved l => l
  | Rejected _ => defaultLogFactory event
  end.

(** The effects of a call of [sendResponse] at time [t], in order. *)
Definition send_trace (network : Network) (event : Event) (context : Context)
  (d : Details.t) (logger : Logger) (t : Z) : list (Z * Effect) :=
  let r := request event context d in
  [ (t, Log logger LevelDebug (LogString (str "Response body:")));
    (t, Log logger LevelDebug (LogString (put_body r)));
    (t, Log logger LevelDebug (LogString (str "CFN response URL: " ++ put_url r)));
    (t, Put r) ] ++
  match network t r with
  | Pending => []
  | Settles l (Resolved a) =>
      [ (t + Z.of_N l,
         Log logger LevelInfo
           (LogString (str "CloudFormation returned status code: "
                       ++ number_to_string (status a)))) ]
  | Settles l (Rejected e) =>
      [ (t + Z.of_N l,
         Log logger LevelError
           (LogString (str "sendResponse(...) failed executing axios.put:")));
        (t + Z.of_N l, Log logger LevelError (LogThrown e)) ]
  end.

(** The message the deadline guard logs when its timer fires. *)
Definition guard_message : LogArgument :=
  LogString (str "Execution is about to time out, sending failure message").

(** The text [sendResponse] gives as reason when it is given none. *)
Definition default_reason (context : Context) : jsstring :=
  str "See the details in CloudWatch Log Stream: " ++ logStreamName context.

(** A string of ASCII characters. *)
Definition ascii_string (s : jsstring) : Prop := Forall (fun c => (c < 128)%N) s.

(** A JSON value all of whose strings and property names are ASCII. *)
Fixpoint ascii_value (v : JSON.value) : Prop :=
  match v with
  | JSON.Null => True
  | JSON.Bool _ => True
  | JSON.String s => ascii_string s
  | JSON.Array items =>
      (fix all (l : list JSON.value) : Prop :=
         match l with
         | [] => True
         | x :: r => ascii_value x /\ all r
         end) items
  | JSON.Object properties =>
      (fix all (l : list (jsstring * JSON.value)) : Prop :=
         match l with
         | [] => True
         | kv :: r => ascii_string (fst kv) /\ ascii_value (snd kv) /\ all r
         end) properties
  end.

(** The properties of an object are ASCII. *)
Definition ascii_properties (properties : list (jsstring * JSON.value)) : Prop :=
  ascii_value (JSON.Object properties).

(** Two answers of the network that differ at most in the status code of an
    accepted request. *)
Definition same_up_to_status (b1 b2 : Behaviour AxiosResponse) : Prop :=
  match b1, b2 with
  | Pending, Pending => True
  | Settles l1 (Resolved _), Settles l2 (Resolved _) => l1 = l2
  | Settles l1 (Rejected e1), Settles l2 (Rejected e2) => l1 = l2 /\ e1 = e2
  | _, _ => False
  end.

(** The request type for which the [switch] calls a handler. *)
Definition request_type_of (name : HandlerName) : jsstring :=
  match name with
  | OnCreate => str "Create"
  | OnUpdate => str "Update"
  | OnDelete => str "Delete"
  end.

(** The handler set has a handler of that name. *)
Definition registered (rh : ResourceHandler) (name : HandlerName) : Prop :=
  match name with
  | OnCreate => onCreate rh <> None
  | OnUpdate => onUpdate rh <> None
  | OnDelete => onDelete rh <> None
  end.

(** The strings that [sendResponse] puts into an envelope are ASCII: the
    three ids of the event, the name of the log stream, and the reason, the
    id and the data of the details if they are given. *)
Definition ascii_option (o : option jsstring) : Prop :=
  match o with
  | Some s => ascii_string s
  | None => True
  end.

Definition ascii_inputs (event : Event) (context : Context) (d : Details.t) : Prop :=
  ascii_string (StackId event)
  /\ ascii_string (RequestId event)
  /\ ascii_string (LogicalResourceId event)
  /\ ascii_string (logStreamName context)
  /\ ascii_option (Details.reason d)
  /\ ascii_option (Details.physicalResourceId d)
  /\ match Details.responseData d with
     | Some data => ascii_properties data
     | None => True
     end.

(** ** Sample inputs *)

Module Sample.

Definition event (requestType : jsstring) : Event :=
  {| RequestType := requestType;
     ServiceToken := str "arn:aws:lambda:eu-west-1:123456789012:function:provider";
     ResponseURL := str "https://cloudformation-custom-resource-response.example/put";
     StackId := str "arn:aws:cloudformation:eu-west-1:123456789012:stack/demo/guid";
     RequestId := str "7b1c2f0e";
     LogicalResourceId := str "MyCustomResource";
     ResourceType := str "AWS::CloudFormation::CustomResource";
     PhysicalResourceId := Some (str "resource-1");
     ResourceProperties := [];
     OldResourceProperties := None |}.

(** A context with thirty seconds left at time 0. *)
Definition context : Context :=
  {| logStreamName := str "2020/01/01/[$LATEST]abcdef";
     getRemainingTimeInMillis := fun t => 30000 - t |}.

(** A network that accepts every PUT after 40 ms. *)
Definition accepting : Network :=
  fun _ _ => Settles 40 (Resolved {| status := 200 |}).

(** A network that refuses every PUT after 40 ms. *)
Definition refusing : Network :=
  fun _ _ => Settles 40 (Rejected (Error (str "Network Error"))).

(** A network that answers the PUTs issued before time 20 with an error and
    accepts the later ones. *)
Definition recovering : Network :=
  fun t _ =>
    if t <? 20 then Settles 40 (Rejected (Error (str "Request failed with status code 503")))
    else Settles 40 (Resolved {| status := 200 |}).

Definition no_handlers : ResourceHandler :=
  {| onCreate := None; onUpdate := None; onDelete := None |}.

(** Handlers that all settle after [latency] milliseconds. *)
Definition resolving (latency : N) (r : ResourceHandlerReturn) : ResourceHandler :=
  {| onCreate := Some (fun _ _ _ => Settles latency (Resolved r));
     onUpdate := Some (fun _ _ _ => Settles latency (Resolved r));
     onDelete := Some (fun _ _ _ => Settles latency (Resolved tt)) |}.

Definition rejecting (latency : N) (e : Thrown) : ResourceHandler :=
  {| onCreate := Some (fun _ _ _ => Settles latency (Rejected e));
     onUpdate := Some (fun _ _ _ => Settles latency (Rejected e));
     onDelete := Some (fun _ _ _ => Settles latency (Rejected e)) |}.

Definition hanging : ResourceHandler :=
  {| onCreate := Some (fun _ _ _ => Pending);
     onUpdate := Some (fun _ _ _ => Pending);
     onDelete := Some (fun _ _ _ => Pending) |}.

(** A handler result with an attribute. *)
Definition result : ResourceHandlerReturn :=
  {| physicalResourceId := str "resource-2";
     responseData := Some [(str "Endpoint", JSON.String (str "db.local"))] |}.

(** A handler result whose [physicalResourceId] is the empty string. *)
Definition anonymous : ResourceHandlerReturn :=
  {| physicalResourceId := []; responseData := None |}.

(** A handler result with an attribute outside ASCII: "Jos" followed by
    U+00E9. *)
Definition accented : ResourceHandlerReturn :=
  {| physicalResourceId := str "resource-2";
     responseData := Some [(str "Owner", JSON.String [74; 111; 115; 233]%N)] |}.

(** A synchronous handler factory. *)
Definition factory (rh : ResourceHandler) : ResourceHandlerFactory :=
  fun _ => Settles 0 (Resolved rh).

End Sample.

(** * Properties *)

(** ** Strings *)

Lemma eqb_eq (s1 s2 : jsstring) : Js.eqb s1 s2 = true <-> s1 = s2.
Proof.
  revert s2; induction s1 as [|c r IH]; intros [|d r2]; simpl; split;
    try discriminate; try reflexivity.
  - intros H. apply andb_true_iff in H as [Hc Hr].
    apply N.eqb_eq in Hc. apply IH in Hr. now subst.
  - intros H. injection H as -> ->.
    apply andb_true_iff; split; [apply N.eqb_refl | now apply IH].
Qed.

Lemma eqb_refl (s : jsstring) : Js.eqb s s = true.
Proof. now apply eqb_eq. Qed.

Lemma eqb_neq (s1 s2 : jsstring) : Js.eqb s1 s2 = false <-> s1 <> s2.
Proof.
  split.
  - intros H E. apply eqb_eq in E. congruence.
  - intros H. destruct (Js.eqb s1 s2) eqn:E; [|reflexivity].
    apply eqb_eq in E. contradiction.
Qed.

Lemma or_else_truthy (a : option jsstring) (b : jsstring) :
  Js.truthy b = true -> Js.truthy (Js.or_else a b) = true.
Proof.
  intros Hb. destruct a as [s|]; simpl; [|exact Hb].
  destruct (Js.truthy s) eqn:E; [exact E | exact Hb].
Qed.

Lemma truthy_nonempty (s : jsstring) : Js.truthy s = true <-> s <> [].
Proof. destruct s; simpl; split; congruence. Qed.

(** ** Traces *)

Lemma puts_app (a b : list (Z * Effect)) : puts (a ++ b) = puts a ++ puts b.
Proof.
  induction a as [|[t e] a IH]; simpl; [reflexivity|].
  destruct e; simpl; now rewrite IH.
Qed.

Lemma invocations_app (a b : list (Z * Effect)) :
  invocations (a ++ b) = invocations a ++ invocations b.
Proof.
  induction a as [|[t e] a IH]; simpl; [reflexivity|].
  destruct e; simpl; now rewrite IH.
Qed.

(** ** Computations *)

Lemma bind_ret {A B} (a : A) (k : A -> Async B) (t : Z) :
  bind (ret a) k t = k a t.
Proof. unfold bind, ret; simpl. now destruct (k a t). Qed.

Lemma bind_throw {A B} (e : Thrown) (k : A -> Async B) (t : Z) :
  bind (throw e) k t = {| trace := []; settled := Some (t, Rejected e) |}.
Proof. reflexivity. Qed.

Lemma bind_await {A B} (b : Behaviour A) (k : A -> Async B) (t : Z) :
  bind (await b) k t =
  match b with
  | Pending => {| trace := []; settled := None |}
  | Settles l (Resolved a) => k a (t + Z.of_N l)
  | Settles l (Rejected e) =>
      {| trace := []; settled := Some (t + Z.of_N l, Rejected e) |}
  end.
Proof.
  unfold bind, await; simpl.
  destruct b as [|l [a|e]]; try reflexivity.
  now destruct (k a (t + Z.of_N l)).
Qed.

(** ** The callback sender *)

Section Sender.

Variable network : Network.
Variables (event : Event) (context : Context) (logger : Logger).

(** The body [sendResponse] writes is the envelope of its details, with the
    defaults of the three optional members. *)
Lemma responseBody_envelope (d : Details.t) :
  JSON.stringify (responseObject event context d) =
  envelope event (Details.responseStatus d)
    (Js.or_else (Details.reason d)
       (str "See the details in CloudWatch Log Stream: " ++ logStreamName context))
    (Js.or_else (Details.physicalResourceId d) (str "None"))
    (match Details.responseData d with Some data => data | None => [] end).
Proof. reflexivity. Qed.

Lemma sendResponse_puts (d : Details.t) (t : Z) :
  puts (trace (sendResponse network event context d logger t)) =
  [(t, request event context d)].
Proof.
  unfold sendResponse, request, request_for, try_catch, bind, logger_debug, perform,
    axios_put; simpl.
  destruct (network t _) as [|l [a|e]]; reflexivity.
Qed.

Lemma sendResponse_invocations (d : Details.t) (t : Z) :
  invocations (trace (sendResponse network event context d logger t)) = [].
Proof.
  unfold sendResponse, request, request_for, try_catch, bind, logger_debug, perform,
    axios_put; simpl.
  destruct (network t _) as [|l [a|e]]; reflexivity.
Qed.

Lemma sendResponse_settled (d : Details.t) (t : Z) :
  settled (sendResponse network event context d logger t) =
  delivery network event context d t.
Proof.
  unfold delivery, sendResponse, request, request_for, try_catch, bind, logger_debug,
    perform, axios_put; simpl.
  destruct (network t _) as [|l [a|e]]; reflexivity.
Qed.

End Sender.

Arguments sendResponse : simpl never.

(** ** The dispatcher *)

Section Dispatcher.

Variable network : Network.
Variables (event : Event) (context : Context) (logger : Logger).

Lemma handleRessource_run (rh : ResourceHandler) (t : Z) :
  handleRessource network event context rh logger t =
  dispatch_run network event context logger (select event context rh logger) t.
Proof.
  unfold handleRessource, select, dispatch_run, call, destructure, keep_defaults.
  destruct (Js.eqb (RequestType event) (str "Create")).
  { destruct (onCreate rh) as [h|]; [|reflexivity].
    destruct (h event context logger) as [|l [r|e]]; reflexivity. }
  destruct (Js.eqb (RequestType event) (str "Update")).
  { destruct (onUpdate rh) as [h|]; [|reflexivity].
    destruct (h event context logger) as [|l [r|e]]; reflexivity. }
  destruct (Js.eqb (RequestType event) (str "Delete")).
  { destruct (onDelete rh) as [h|]; [|reflexivity].
    destruct (h event context logger) as [|l [r|e]]; reflexivity. }
  reflexivity.
Qed.

End Dispatcher.

(** ** The deadline guard *)

Lemma handleTimeout_run (context : Context) (logger : Logger) (t : Z) :
  handleTimeout context logger t =
  {| trace :=
       [ (t, SetTimeout (getRemainingTimeInMillis context t - 3000));
         (deadline context t,
          Log logger LevelError
            (LogString (str "Execution is about to time out, sending failure message"))) ];
     settled := Some (deadline context t, Rejected timeout_error) |}.
Proof. reflexivity. Qed.

Lemma timer_delay_in_range (d : Z) :
  1 <= d <= TIMEOUT_MAX -> timer_delay d = d.
Proof.
  intros [H1 H2]. unfold timer_delay.
  apply Z.leb_le in H1, H2. now rewrite H1, H2.
Qed.

Lemma timer_delay_positive (d : Z) : 1 <= timer_delay d.
Proof.
  unfold timer_delay.
  destruct (1 <=? d) eqn:H1; simpl; [|lia].
  destruct (d <=? TIMEOUT_MAX); [apply Z.leb_le in H1|]; lia.
Qed.

Lemma deadline_later (context : Context) (t : Z) : t < deadline context t.
Proof.
  unfold deadline.
  pose proof (timer_delay_positive (getRemainingTimeInMillis context t - 3000)). lia.
Qed.

(** ** The race *)

Lemma first_settled_left {A} (ta tb : Z) (ra rb : Result A) :
  ta <= tb -> first_settled (Some (ta, ra)) (Some (tb, rb)) = Some (ta, ra).
Proof. intros H. simpl. apply Z.leb_le in H. now rewrite H. Qed.

Lemma first_settled_right {A} (ta tb : Z) (ra rb : Result A) :
  tb < ta -> first_settled (Some (ta, ra)) (Some (tb, rb)) = Some (tb, rb).
Proof. intros H. simpl. apply Z.leb_gt in H. now rewrite H. Qed.

(** ** The entry point *)

Section EntryPoint.

Variable network : Network.
Variables (event : Event) (context : Context).

Lemma catch_block_run (logger : Logger) (error : Thrown) (t : Z) :
  catch_block network event context logger error t =
  catch_run network event context logger error t.
Proof. destruct error; reflexivity. Qed.

Lemma try_catch_caught (logger : Logger) (p : Async unit) (t : Z) :
  try_catch p (catch_block network event context logger) t =
  caught network event context logger (p t).
Proof.
  unfold try_catch, caught.
  destruct (settled (p t)) as [[t' [a|e]]|]; try reflexivity.
  now rewrite catch_block_run.
Qed.

Lemma caught_rejected (logger : Logger) (e : Thrown) (t : Z) :
  caught network event context logger {| trace := []; settled := Some (t, Rejected e) |} =
  catch_run network event context logger e t.
Proof. unfold caught; simpl. now destruct (catch_run _ _ _ _ _ _). Qed.

(** The entry point, stage by stage. *)
Lemma customResourceHelper_run
  (factory : ResourceHandlerFactory) (logFactory : option LogFactory) (t : Z) :
  customResourceHelper network factory logFactory event context t =
  match active_logger logFactory event context with
  | Rejected e => catch_run network event context (defaultLogFactory event) e t
  | Resolved logger =>
      match factory logger with
      | Pending => {| trace := []; settled := None |}
      | Settles lf (Rejected e) =>
          catch_run network event context logger e (t + Z.of_N lf)
      | Settles lf (Resolved rh) =>
          caught network event context logger
            (race (handleRessource network event context rh logger)
                  (handleTimeout context logger) (t + Z.of_N lf))
      end
  end.
Proof.
  unfold customResourceHelper.
  change (match logFactory with
          | Some f => f event context
          | None => Resolved (defaultLogFactory event)
          end) with (active_logger logFactory event context).
  destruct (active_logger logFactory event context) as [logger|e];
    cbv beta iota zeta.
  - etransitivity; [apply (try_catch_caught logger)|].
    rewrite bind_ret, bind_await.
    destruct (factory logger) as [|l [rh|e]]; try reflexivity.
    apply caught_rejected.
  - etransitivity; [apply (try_catch_caught (defaultLogFactory event))|].
    rewrite bind_throw. apply caught_rejected.
Qed.

End EntryPoint.

(** ** The stages of an invocation *)

Section Stages.

Variable network : Network.
Variables (event : Event) (context : Context) (logger : Logger).

Lemma dispatch_run_puts (sel : Selection) (t : Z) :
  puts (trace (dispatch_run network event context logger sel t)) =
  dispatch_puts event context sel t.
Proof.
  destruct sel as [| |name [|l [[pid data]|e]]]; cbn;
    try reflexivity; apply sendResponse_puts.
Qed.

Lemma dispatch_run_settled (sel : Selection) (t : Z) :
  settled (dispatch_run network event context logger sel t) =
  dispatch_settled network event context sel t.
Proof.
  destruct sel as [| |name [|l [[pid data]|e]]]; cbn;
    try reflexivity; apply sendResponse_settled.
Qed.

Lemma dispatch_run_invocations (sel : Selection) (t : Z) :
  invocations (trace (dispatch_run network event context logger sel t)) =
  match sel with Handler name _ => [name] | _ => [] end.
Proof.
  destruct sel as [| |name [|l [[pid data]|e]]]; cbn;
    try reflexivity; now rewrite sendResponse_invocations.
Qed.

Lemma catch_run_puts (e : Thrown) (t : Z) :
  puts (trace (catch_run network event context logger e t)) =
  catch_puts event context (Some (t, Rejected e)).
Proof. destruct e; cbn; [reflexivity | apply sendResponse_puts]. Qed.

Lemma catch_run_settled (e : Thrown) (t : Z) :
  settled (catch_run network event context logger e t) =
  catch_settled network event context (Some (t, Rejected e)).
Proof. destruct e; cbn; [reflexivity | apply sendResponse_settled]. Qed.

Lemma catch_run_invocations (e : Thrown) (t : Z) :
  invocations (trace (catch_run network event context logger e t)) = [].
Proof. destruct e; cbn; [reflexivity | apply sendResponse_invocations]. Qed.

Lemma caught_puts (r : Run unit) :
  puts (trace (caught network event context logger r)) =
  puts (trace r) ++ catch_puts event context (settled r).
Proof.
  unfold caught.
  destruct (settled r) as [[t [[]|e]]|]; cbn; try now rewrite app_nil_r.
  rewrite puts_app. now rewrite catch_run_puts.
Qed.

Lemma caught_settled (r : Run unit) :
  settled (caught network event context logger r) =
  catch_settled network event context (settled r).
Proof.
  unfold caught.
  destruct (settled r) as [[t [[]|e]]|] eqn:E; cbn; try exact E.
  apply catch_run_settled.
Qed.

Lemma caught_invocations (r : Run unit) :
  invocations (trace (caught network event context logger r)) = invocations (trace r).
Proof.
  unfold caught.
  destruct (settled r) as [[t [[]|e]]|]; cbn; try reflexivity.
  rewrite invocations_app, catch_run_invocations. apply app_nil_r.
Qed.

(** The race of the dispatcher and the guard. *)
Lemma race_puts (rh : ResourceHandler) (t : Z) :
  puts (trace (race (handleRessource network event context rh logger)
                    (handleTimeout context logger) t)) =
  dispatch_puts event context (select event context rh logger) t.
Proof.
  unfold race; cbn [trace].
  rewrite puts_app, handleRessource_run, dispatch_run_puts, handleTimeout_run.
  apply app_nil_r.
Qed.

Lemma race_settles (rh : ResourceHandler) (t : Z) :
  settled (race (handleRessource network event context rh logger)
                (handleTimeout context logger) t) =
  race_settled network event context (select event context rh logger) t.
Proof.
  unfold race, race_settled; cbn [settled].
  now rewrite handleRessource_run, dispatch_run_settled, handleTimeout_run.
Qed.

Lemma race_invocations (rh : ResourceHandler) (t : Z) :
  invocations (trace (race (handleRessource network event context rh logger)
                           (handleTimeout context logger) t)) =
  match select event context rh logger with Handler name _ => [name] | _ => [] end.
Proof.
  unfold race; cbn [trace].
  rewrite invocations_app, handleRessource_run, dispatch_run_invocations,
    handleTimeout_run.
  apply app_nil_r.
Qed.

End Stages.

(** An invocation whose logger is [logger] and whose handler factory yields
    the handler set [rh] after [lf] milliseconds. *)
Section Invocation.

Variable network : Network.
Variables (factory : ResourceHandlerFactory) (logFactory : option LogFactory).
Variables (event : Event) (context : Context).
Variables (logger : Logger) (lf : N) (rh : ResourceHandler).
Hypothesis Hlogger : active_logger logFactory event context = Resolved logger.
Hypothesis Hfactory : factory logger = Settles lf (Resolved rh).

Lemma invocation_puts (t : Z) :
  puts (trace (customResourceHelper network factory logFactory event context t)) =
  dispatch_puts event context (select event context rh logger) (t + Z.of_N lf) ++
  catch_puts event context
    (race_settled network event context (select event context rh logger) (t + Z.of_N lf)).
Proof.
  rewrite customResourceHelper_run, Hlogger, Hfactory.
  now rewrite caught_puts, race_puts, race_settles.
Qed.

Lemma invocation_settled (t : Z) :
  settled (customResourceHelper network factory logFactory event context t) =
  catch_settled network event context
    (race_settled network event context (select event context rh logger) (t + Z.of_N lf)).
Proof.
  rewrite customResourceHelper_run, Hlogger, Hfactory.
  now rewrite caught_settled, race_settles.
Qed.

Lemma invocation_invocations (t : Z) :
  invocations (trace (customResourceHelper network factory logFactory event context t)) =
  match select event context rh logger with Handler name _ => [name] | _ => [] end.
Proof.
  rewrite customResourceHelper_run, Hlogger, Hfactory.
  now rewrite caught_invocations, race_invocations.
Qed.

End Invocation.

(** ** Envelopes *)

Lemma failure_reason_truthy (m : option jsstring) : Js.truthy (failure_reason m) = true.
Proof. now apply or_else_truthy. Qed.

Lemma or_else_of_truthy (s d : jsstring) :
  Js.truthy s = true -> Js.or_else (Some s) d = s.
Proof. intros H. unfold Js.or_else. now rewrite H. Qed.

Lemma request_success (event : Event) (context : Context) (pid : jsstring)
  (data : list (jsstring * JSON.value)) :
  request event context (success_details pid data) =
  request_for event (success_envelope event (Js.or_else (Some pid) (str "None")) data).
Proof. reflexivity. Qed.

Lemma request_failed (event : Event) (context : Context) (reason : jsstring) :
  Js.truthy reason = true ->
  request event context (failed_details reason) =
  request_for event (failed_envelope event reason).
Proof.
  intros H. unfold request, failed_envelope.
  rewrite responseBody_envelope. cbn [failed_details Details.reason Details.responseStatus
    Details.physicalResourceId Details.responseData].
  now rewrite or_else_of_truthy.
Qed.

Lemma status_of_envelope (event : Event) (s : ResponseStatus) (reason pid : jsstring)
  (data : list (jsstring * JSON.value)) :
  status_of (envelope event s reason pid data) = Some s.
Proof. destruct s; reflexivity. Qed.

Lemma has_status_envelope (event : Event) (t : Z) (s s' : ResponseStatus)
  (reason pid : jsstring) (data : list (jsstring * JSON.value)) :
  has_status s (t, request_for event (envelope event s' reason pid data)) =
  match s, s' with
  | SUCCESS, SUCCESS | FAILED, FAILED => true
  | _, _ => false
  end.
Proof.
  unfold has_status. cbn [snd put_body request_for].
  rewrite status_of_envelope. now destruct s, s'.
Qed.

(** ** The switch *)

Lemma select_invalid (event : Event) (context : Context) (rh : ResourceHandler)
  (logger : Logger) :
  invalid_request_type event -> select event context rh logger = InvalidRequestType.
Proof.
  intros (Hc & Hu & Hd). unfold select.
  apply eqb_neq in Hc, Hu, Hd. now rewrite Hc, Hu, Hd.
Qed.

(** ** Invalid request types *)

(** C4.  An event whose [RequestType] is none of the strings "Create",
    "Update" and "Delete" makes the dispatcher reject at once with the error
    "Invalid RequestType received"; no handler is invoked, and the invocation
    performs exactly one PUT, that of a FAILED envelope whose reason contains
    "Invalid RequestType". *)
Theorem invalid_request_type_fails_once
  (network : Network) (factory : ResourceHandlerFactory)
  (logFactory : option LogFactory) (event : Event) (context : Context)
  (logger : Logger) (lf : N) (rh : ResourceHandler) (t : Z)
  (Hlogger : active_logger logFactory event context = Resolved logger)
  (Hfactory : factory logger = Settles lf (Resolved rh))
  (Htype : invalid_request_type event) :
  let t1 := t + Z.of_N lf in
  let run := customResourceHelper network factory logFactory event context t in
  settled (handleRessource network event context rh logger t1) =
    Some (t1, Rejected (Error (str "Invalid RequestType received")))
  /\ invocations (trace run) = []
  /\ puts (trace run) =
       [(t1, request_for event (failed_envelope event (str "Invalid RequestType received")))]
  /\ sent_with FAILED (trace run) = puts (trace run)
  /\ Js.includes (str "Invalid RequestType received") (str "Invalid RequestType") = true.
Proof.
  intros t1 run.
  pose proof (select_invalid event context rh logger Htype) as Hsel.
  assert (Hputs : puts (trace run) =
    [(t1, request_for event (failed_envelope event (str "Invalid RequestType received")))]).
  { unfold run. rewrite (invocation_puts _ _ _ _ _ _ _ _ Hlogger Hfactory), Hsel.
    unfold race_settled; cbn [dispatch_puts dispatch_settled app].
    rewrite first_settled_left by (pose proof (deadline_later context t1); fold t1; lia).
    reflexivity. }
  repeat split.
  - now rewrite handleRessource_run, dispatch_run_settled, Hsel.
  - unfold run. now rewrite (invocation_invocations _ _ _ _ _ _ _ _ Hlogger Hfactory), Hsel.
  - exact Hputs.
  - unfold sent_with. rewrite Hputs. unfold failed_envelope. cbn [filter].
    now rewrite has_status_envelope.
Qed.

Lemma invalid_request_type_fails_once_witness :
  puts (trace (customResourceHelper Sample.accepting (Sample.factory Sample.no_handlers)
                 None (Sample.event (str "Replace")) Sample.context 0)) =
  [(0, request_for (Sample.event (str "Replace"))
         (failed_envelope (Sample.event (str "Replace"))
            (str "Invalid RequestType received")))].
Proof.
  refine (proj1 (proj2 (proj2
    (invalid_request_type_fails_once Sample.accepting (Sample.factory Sample.no_handlers)
       None (Sample.event (str "Replace")) Sample.context
       (DefaultLogger (Sample.event (str "Replace"))) 0 Sample.no_handlers 0
       eq_refl eq_refl _)))).
  unfold invalid_request_type; repeat split; discriminate.
Defined.

Section Switch.

Variables (event : Event) (context : Context) (rh : ResourceHandler) (logger : Logger).

Lemma select_create :
  RequestType event = str "Create" ->
  select event context rh logger =
  match onCreate rh with
  | Some h => Handler OnCreate (destructure (h event context logger))
  | None => NoHandler
  end.
Proof. intros H. unfold select. now rewrite H. Qed.

Lemma select_update :
  RequestType event = str "Update" ->
  select event context rh logger =
  match onUpdate rh with
  | Some h => Handler OnUpdate (destructure (h event context logger))
  | None => NoHandler
  end.
Proof. intros H. unfold select. now rewrite H. Qed.

Lemma select_delete :
  RequestType event = str "Delete" ->
  select event context rh logger =
  match onDelete rh with
  | Some h => Handler OnDelete (keep_defaults (h event context logger))
  | None => NoHandler
  end.
Proof. intros H. unfold select. now rewrite H. Qed.

End Switch.

(** ** Envelopes by status *)

Section ByStatus.

Variables (event : Event) (context : Context).

Lemma dispatch_puts_success (sel : Selection) (t : Z) :
  filter (has_status SUCCESS) (dispatch_puts event context sel t) =
  dispatch_puts event context sel t.
Proof.
  destruct sel as [| |name [|l [[pid data]|e]]]; reflexivity.
Qed.

Lemma dispatch_puts_failed (sel : Selection) (t : Z) :
  filter (has_status FAILED) (dispatch_puts event context sel t) = [].
Proof.
  destruct sel as [| |name [|l [[pid data]|e]]]; reflexivity.
Qed.

Lemma catch_puts_failed (body : option (Z * Result unit)) :
  filter (has_status FAILED) (catch_puts event context body) =
  catch_puts event context body.
Proof.
  destruct body as [[t [[]|[|m]]]|]; reflexivity.
Qed.

Lemma catch_puts_success (body : option (Z * Result unit)) :
  filter (has_status SUCCESS) (catch_puts event context body) = [].
Proof.
  destruct body as [[t [[]|[|m]]]|]; reflexivity.
Qed.

End ByStatus.

(** Every invocation: the PUTs are the one of the dispatcher, if any, and the
    one of the [catch] block, if any. *)
Lemma customResourceHelper_puts
  (network : Network) (factory : ResourceHandlerFactory)
  (logFactory : option LogFactory) (event : Event) (context : Context) (t : Z) :
  exists (sel : Selection) (t1 : Z) (body : option (Z * Result unit)),
    puts (trace (customResourceHelper network factory logFactory event context t)) =
    dispatch_puts event context sel t1 ++ catch_puts event context body.
Proof.
  rewrite customResourceHelper_run.
  destruct (active_logger logFactory event context) as [logger|e].
  - destruct (factory logger) as [|lf [rh|e]].
    + now exists InvalidRequestType, t, None.
    + eexists _, _, _. rewrite caught_puts, race_puts. reflexivity.
    + exists InvalidRequestType, t, (Some (t + Z.of_N lf, Rejected e)).
      now rewrite catch_run_puts.
  - exists InvalidRequestType, t, (Some (t, Rejected e)).
    now rewrite catch_run_puts.
Qed.

Section InvocationByStatus.

Variable network : Network.
Variables (factory : ResourceHandlerFactory) (logFactory : option LogFactory).
Variables (event : Event) (context : Context).
Variables (logger : Logger) (lf : N) (rh : ResourceHandler).
Hypothesis Hlogger : active_logger logFactory event context = Resolved logger.
Hypothesis Hfactory : factory logger = Settles lf (Resolved rh).

Lemma invocation_successes (t : Z) :
  sent_with SUCCESS
    (trace (customResourceHelper network factory logFactory event context t)) =
  dispatch_puts event context (select event context rh logger) (t + Z.of_N lf).
Proof.
  unfold sent_with.
  rewrite (invocation_puts _ _ _ _ _ _ _ _ Hlogger Hfactory), filter_app.
  rewrite dispatch_puts_success, catch_puts_success. apply app_nil_r.
Qed.

Lemma invocation_failures (t : Z) :
  sent_with FAILED
    (trace (customResourceHelper network factory logFactory event context t)) =
  catch_puts event context
    (race_settled network event context (select event context rh logger) (t + Z.of_N lf)).
Proof.
  unfold sent_with.
  rewrite (invocation_puts _ _ _ _ _ _ _ _ Hlogger Hfactory), filter_app.
  now rewrite dispatch_puts_failed, catch_puts_failed.
Qed.

End InvocationByStatus.

(** ** Successful dispatch *)

(** C3.  A Create or Update event for which no handler is registered is
    dispatched as a success: no handler is invoked and the dispatcher sends a
    SUCCESS envelope with PhysicalResourceId "None" and the empty object as
    Data; this is the only SUCCESS envelope of the invocation and its first
    PUT. *)
Theorem unhandled_create_update_succeeds
  (network : Network) (factory : ResourceHandlerFactory)
  (logFactory : option LogFactory) (event : Event) (context : Context)
  (logger : Logger) (lf : N) (rh : ResourceHandler) (t : Z)
  (Hlogger : active_logger logFactory event context = Resolved logger)
  (Hfactory : factory logger = Settles lf (Resolved rh))
  (Hcase : (RequestType event = str "Create" /\ onCreate rh = None) \/
           (RequestType event = str "Update" /\ onUpdate rh = None)) :
  let t1 := t + Z.of_N lf in
  let run := customResourceHelper network factory logFactory event context t in
  let dispatch := handleRessource network event context rh logger t1 in
  let sent :=
    (t1, request_for event (success_envelope event (str "None") JSON.empty_object)) in
  invocations (trace run) = []
  /\ puts (trace dispatch) = [sent]
  /\ (forall l a, network t1 (snd sent) = Settles l (Resolved a) ->
        settled dispatch = Some (t1 + Z.of_N l, Resolved tt))
  /\ sent_with SUCCESS (trace run) = [sent]
  /\ hd_error (puts (trace run)) = Some sent.
Proof.
  intros t1 run dispatch sent.
  assert (Hsel : select event context rh logger = NoHandler).
  { destruct Hcase as [[Ht Hh]|[Ht Hh]].
    - now rewrite select_create, Hh.
    - now rewrite select_update, Hh. }
  unfold run, dispatch.
  rewrite (invocation_invocations _ _ _ _ _ _ _ _ Hlogger Hfactory).
  rewrite (invocation_successes _ _ _ _ _ _ _ _ Hlogger Hfactory).
  rewrite (invocation_puts _ _ _ _ _ _ _ _ Hlogger Hfactory).
  rewrite handleRessource_run, dispatch_run_puts, dispatch_run_settled, Hsel.
  repeat split; try reflexivity.
  intros l a Hnet. unfold dispatch_settled, delivery.
  change (request event context (success_details (str "None") JSON.empty_object))
    with (snd sent).
  now rewrite Hnet.
Qed.

Lemma unhandled_create_update_succeeds_witness :
  sent_with SUCCESS
    (trace (customResourceHelper Sample.accepting (Sample.factory Sample.no_handlers)
              None (Sample.event (str "Create")) Sample.context 0)) =
  [(0, request_for (Sample.event (str "Create"))
         (success_envelope (Sample.event (str "Create")) (str "None") JSON.empty_object))].
Proof.
  refine (proj1 (proj2 (proj2 (proj2
    (unhandled_create_update_succeeds Sample.accepting
       (Sample.factory Sample.no_handlers) None (Sample.event (str "Create"))
       Sample.context (DefaultLogger (Sample.event (str "Create"))) 0
       Sample.no_handlers 0 eq_refl eq_refl _))))).
  left; split; reflexivity.
Defined.

(** C9.  A Delete event that is dispatched successfully, with no [onDelete]
    handler or with one that resolves, yields one SUCCESS envelope whose
    PhysicalResourceId is "None" and whose Data is the empty object, whatever
    the PhysicalResourceId of the event is. *)
Theorem delete_reports_none
  (network : Network) (factory : ResourceHandlerFactory)
  (logFactory : option LogFactory) (event : Event) (context : Context)
  (logger : Logger) (lf : N) (rh : ResourceHandler) (l : N) (t : Z)
  (Hlogger : active_logger logFactory event context = Resolved logger)
  (Hfactory : factory logger = Settles lf (Resolved rh))
  (Htype : RequestType event = str "Delete")
  (Hcase : (onDelete rh = None /\ l = 0%N) \/
           (exists h, onDelete rh = Some h /\
                      h event context logger = Settles l (Resolved tt))) :
  let t1 := t + Z.of_N lf in
  let run := customResourceHelper network factory logFactory event context t in
  let sent :=
    (t1 + Z.of_N l,
     request_for event (success_envelope event (str "None") JSON.empty_object)) in
  puts (trace (handleRessource network event context rh logger t1)) = [sent]
  /\ sent_with SUCCESS (trace run) = [sent].
Proof.
  intros t1 run sent. unfold run.
  rewrite (invocation_successes _ _ _ _ _ _ _ _ Hlogger Hfactory).
  rewrite handleRessource_run, dispatch_run_puts, select_delete by exact Htype.
  destruct Hcase as [[Hh ->]|(h & Hh & Hr)]; rewrite Hh.
  - unfold sent. replace (t1 + Z.of_N 0) with t1 by lia.
    repeat split; reflexivity.
  - rewrite Hr. repeat split; reflexivity.
Qed.

Lemma delete_reports_none_witness :
  PhysicalResourceId (Sample.event (str "Delete")) = Some (str "resource-1") /\
  sent_with SUCCESS
    (trace (customResourceHelper Sample.accepting
              (Sample.factory
                 (Sample.resolving 25 {| physicalResourceId := str "resource-2";
                                         responseData := None |}))
              None (Sample.event (str "Delete")) Sample.context 0)) =
  [(25, request_for (Sample.event (str "Delete"))
          (success_envelope (Sample.event (str "Delete")) (str "None") JSON.empty_object))].
Proof.
  split; [reflexivity|].
  refine (proj2
    (delete_reports_none Sample.accepting _ None (Sample.event (str "Delete"))
       Sample.context (DefaultLogger (Sample.event (str "Delete"))) 0 _ 25 0
       eq_refl eq_refl eq_refl _)).
  right. eexists. split; reflexivity.
Defined.

(** C2, as amended.  When the handler registered for a Create or Update event
    resolves, exactly one SUCCESS envelope is sent, with reason "OK"; its Data
    is the [responseData] of the handler's result (the empty object when
    omitted) and its PhysicalResourceId is the [physicalResourceId] of the
    result when that is not the empty string, and "None" when it is. *)
Theorem handler_result_becomes_success_envelope
  (network : Network) (factory : ResourceHandlerFactory)
  (logFactory : option LogFactory) (event : Event) (context : Context)
  (logger : Logger) (lf : N) (rh : ResourceHandler)
  (h : Event -> Context -> Logger -> Behaviour ResourceHandlerReturn)
  (l : N) (r : ResourceHandlerReturn) (t : Z)
  (Hlogger : active_logger logFactory event context = Resolved logger)
  (Hfactory : factory logger = Settles lf (Resolved rh))
  (Hcase : (RequestType event = str "Create" /\ onCreate rh = Some h) \/
           (RequestType event = str "Update" /\ onUpdate rh = Some h))
  (Hresolves : h event context logger = Settles l (Resolved r)) :
  let run := customResourceHelper network factory logFactory event context t in
  let data := match responseData r with Some d => d | None => JSON.empty_object end in
  let pid := if Js.truthy (physicalResourceId r) then physicalResourceId r else str "None" in
  let sent :=
    (t + Z.of_N lf + Z.of_N l, request_for event (success_envelope event pid data)) in
  sent_with SUCCESS (trace run) = [sent]
  /\ (physicalResourceId r <> [] -> pid = physicalResourceId r)
  /\ (physicalResourceId r = [] -> pid = str "None").
Proof.
  intros run data pid sent. unfold run.
  rewrite (invocation_successes _ _ _ _ _ _ _ _ Hlogger Hfactory).
  assert (Hsel : select event context rh logger =
                 Handler (if Js.eqb (RequestType event) (str "Create")
                          then OnCreate else OnUpdate)
                         (Settles l (Resolved (physicalResourceId r, data)))).
  { destruct Hcase as [[Ht Hh]|[Ht Hh]].
    - now rewrite select_create, Hh, Hresolves, Ht.
    - now rewrite select_update, Hh, Hresolves, Ht. }
  rewrite Hsel. cbn [dispatch_puts]. rewrite request_success.
  repeat split.
  - unfold pid. destruct (physicalResourceId r); [congruence | reflexivity].
  - unfold pid. now intros ->.
Qed.

Lemma handler_result_becomes_success_envelope_witness :
  sent_with SUCCESS
    (trace (customResourceHelper Sample.accepting
              (Sample.factory (Sample.resolving 25 Sample.result))
              None (Sample.event (str "Update")) Sample.context 0)) =
  [(25, request_for (Sample.event (str "Update"))
          (success_envelope (Sample.event (str "Update")) (str "resource-2")
             [(str "Endpoint", JSON.String (str "db.local"))]))].
Proof.
  refine (proj1
    (handler_result_becomes_success_envelope Sample.accepting
       (Sample.factory (Sample.resolving 25 Sample.result)) None
       (Sample.event (str "Update")) Sample.context
       (DefaultLogger (Sample.event (str "Update"))) 0
       (Sample.resolving 25 Sample.result)
       (fun _ _ _ => Settles 25 (Resolved Sample.result)) 25 Sample.result 0
       eq_refl eq_refl _ eq_refl)).
  right; split; reflexivity.
Defined.

(** C2, as stated, fails for a handler that returns the empty string as
    [physicalResourceId]: the SUCCESS envelope does not carry the empty
    string. *)
Lemma empty_physical_resource_id_not_forwarded :
  sent_with SUCCESS
    (trace (customResourceHelper Sample.accepting
              (Sample.factory (Sample.resolving 25 Sample.anonymous)) None
              (Sample.event (str "Create")) Sample.context 0)) <>
  [(25, request_for (Sample.event (str "Create"))
          (success_envelope (Sample.event (str "Create"))
             (physicalResourceId Sample.anonymous) JSON.empty_object))].
Proof.
  intros H. vm_compute in H. discriminate H.
Qed.

(** ** The PhysicalResourceId of an envelope *)

Lemma or_else_none_nonempty (a : option jsstring) : Js.or_else a (str "None") <> [].
Proof. apply truthy_nonempty. now apply or_else_truthy. Qed.

Lemma or_else_absent_or_empty (a : option jsstring) (d : jsstring) :
  a = None \/ a = Some [] -> Js.or_else a d = d.
Proof. now intros [->| ->]. Qed.

(** C10.  The PhysicalResourceId of every envelope is a non-empty string:
    [sendResponse] writes the sentinel "None" whenever the id it is given is
    absent or the empty string; so does every PUT of every invocation, and a
    Create or Update handler that returns the empty string as id has "None"
    reported. *)
Theorem physical_resource_id_never_empty
  (network : Network) (event : Event) (context : Context) (logger : Logger) :
  (forall (d : Details.t) (t : Z),
     let pid := Js.or_else (Details.physicalResourceId d) (str "None") in
     (exists reason data,
        puts (trace (sendResponse network event context d logger t)) =
        [(t, request_for event (envelope event (Details.responseStatus d) reason pid data))])
     /\ pid <> []
     /\ (Details.physicalResourceId d = None \/ Details.physicalResourceId d = Some [] ->
         pid = str "None"))
  /\ (forall (factory : ResourceHandlerFactory) (logFactory : option LogFactory) (t : Z),
        Forall (fun p => exists s reason pid data,
                           snd p = request_for event (envelope event s reason pid data)
                           /\ pid <> [])
               (puts (trace (customResourceHelper network factory logFactory event context t))))
  /\ (forall (rh : ResourceHandler)
             (h : Event -> Context -> Logger -> Behaviour ResourceHandlerReturn)
             (l : N) (r : ResourceHandlerReturn) (t : Z),
        (RequestType event = str "Create" /\ onCreate rh = Some h) \/
        (RequestType event = str "Update" /\ onUpdate rh = Some h) ->
        h event context logger = Settles l (Resolved r) ->
        physicalResourceId r = [] ->
        exists data,
          puts (trace (handleRessource network event context rh logger t)) =
          [(t + Z.of_N l, request_for event (success_envelope event (str "None") data))]).
Proof.
  split; [|split].
  - intros d t pid. split; [|split].
    + rewrite sendResponse_puts. unfold request. rewrite responseBody_envelope.
      now eexists _, _.
    + apply or_else_none_nonempty.
    + apply or_else_absent_or_empty.
  - intros factory logFactory t.
    destruct (customResourceHelper_puts network factory logFactory event context t)
      as (sel & t1 & body & ->).
    apply Forall_app; split.
    + destruct sel as [| |name [|l [[pid data]|e]]]; cbn [dispatch_puts];
        try apply Forall_nil;
        apply Forall_cons; try apply Forall_nil;
        rewrite request_success; unfold success_envelope;
        eexists _, _, _, _; (split; [reflexivity | apply or_else_none_nonempty]).
    + destruct body as [[t2 [[]|[|m]]]|]; cbn [catch_puts]; try apply Forall_nil.
      apply Forall_cons; [|apply Forall_nil].
      rewrite request_failed by apply failure_reason_truthy.
      unfold failed_envelope. eexists _, _, _, _. split; [reflexivity | discriminate].
  - intros rh h l r t Hcase Hres Hempty.
    rewrite handleRessource_run, dispatch_run_puts.
    destruct Hcase as [[Ht Hh]|[Ht Hh]];
      [rewrite select_create by exact Ht | rewrite select_update by exact Ht];
      rewrite Hh, Hres; cbn [destructure dispatch_puts];
      rewrite request_success, Hempty; now eexists.
Qed.

Lemma physical_resource_id_never_empty_witness :
  exists data,
    puts (trace (handleRessource Sample.accepting (Sample.event (str "Create"))
                   Sample.context (Sample.resolving 25 Sample.anonymous)
                   (DefaultLogger (Sample.event (str "Create"))) 0)) =
    [(25, request_for (Sample.event (str "Create"))
            (success_envelope (Sample.event (str "Create")) (str "None") data))].
Proof.
  refine (proj2 (proj2
    (physical_resource_id_never_empty Sample.accepting (Sample.event (str "Create"))
       Sample.context (DefaultLogger (Sample.event (str "Create")))))
    (Sample.resolving 25 Sample.anonymous)
    (fun _ _ _ => Settles 25 (Resolved Sample.anonymous)) 25%N Sample.anonymous 0
    _ eq_refl eq_refl).
  left; split; reflexivity.
Defined.

(** ** Handler errors *)

Lemma select_rejects (event : Event) (context : Context) (rh : ResourceHandler)
  (logger : Logger) (l : N) (e : Thrown) :
  matched_handler_rejects event context rh logger l e ->
  exists name, select event context rh logger = Handler name (Settles l (Rejected e)).
Proof.
  intros [[Ht (h & Hh & Hr)]|[[Ht (h & Hh & Hr)]|[Ht (h & Hh & Hr)]]].
  - exists OnCreate. now rewrite select_create, Hh, Hr.
  - exists OnUpdate. now rewrite select_update, Hh, Hr.
  - exists OnDelete. now rewrite select_delete, Hh, Hr.
Qed.

Lemma failure_reason_message (s : jsstring) : s <> [] -> failure_reason (Some s) = s.
Proof. intros H. apply or_else_of_truthy. now apply truthy_nonempty. Qed.

(** C5, as amended.  When the handler matched by the event rejects with an
    error object (any value but [undefined] and [null]) before the deadline
    guard fires, the dispatcher rejects with that same value and sends
    nothing, and the entry point sends exactly one envelope: a FAILED envelope
    whose reason is the message of the error, or "Internal Error" if the
    error has no message or an empty one. *)
Theorem handler_error_becomes_failed_envelope
  (network : Network) (factory : ResourceHandlerFactory)
  (logFactory : option LogFactory) (event : Event) (context : Context)
  (logger : Logger) (lf : N) (rh : ResourceHandler)
  (l : N) (message : option jsstring) (t : Z)
  (Hlogger : active_logger logFactory event context = Resolved logger)
  (Hfactory : factory logger = Settles lf (Resolved rh))
  (Hrejects : matched_handler_rejects event context rh logger l (ErrorObject message))
  (Hbefore : t + Z.of_N lf + Z.of_N l < deadline context (t + Z.of_N lf)) :
  let t1 := t + Z.of_N lf in
  let run := customResourceHelper network factory logFactory event context t in
  let dispatch := handleRessource network event context rh logger t1 in
  let failed :=
    (t1 + Z.of_N l, request_for event (failed_envelope event (failure_reason message))) in
  settled dispatch = Some (t1 + Z.of_N l, Rejected (ErrorObject message))
  /\ puts (trace dispatch) = []
  /\ puts (trace run) = [failed]
  /\ sent_with FAILED (trace run) = [failed]
  /\ (forall s, message = Some s -> s <> [] -> failure_reason message = s)
  /\ (message = None \/ message = Some [] ->
      failure_reason message = str "Internal Error").
Proof.
  intros t1 run dispatch failed.
  destruct (select_rejects _ _ _ _ _ _ Hrejects) as [name Hsel].
  assert (Hputs : puts (trace run) = [failed]).
  { unfold run. rewrite (invocation_puts _ _ _ _ _ _ _ _ Hlogger Hfactory), Hsel.
    unfold race_settled. cbn [dispatch_settled dispatch_puts app].
    rewrite first_settled_left by (fold t1 in Hbefore |- *; lia).
    cbn [catch_puts]. unfold failed.
    now rewrite request_failed by apply failure_reason_truthy. }
  assert (Hfailed : sent_with FAILED (trace run) = [failed]).
  { unfold sent_with. rewrite Hputs. unfold failed, failed_envelope. cbn [filter].
    now rewrite has_status_envelope. }
  unfold dispatch.
  rewrite handleRessource_run, dispatch_run_puts, dispatch_run_settled, Hsel.
  repeat split; try assumption.
  - intros s -> Hs. now apply failure_reason_message.
  - now intros [->| ->].
Qed.

Lemma handler_error_becomes_failed_envelope_witness :
  puts (trace (customResourceHelper Sample.accepting
                 (Sample.factory (Sample.rejecting 25 (Error (str "boom")))) None
                 (Sample.event (str "Create")) Sample.context 0)) =
  [(25, request_for (Sample.event (str "Create"))
          (failed_envelope (Sample.event (str "Create")) (str "boom")))].
Proof.
  refine (proj1 (proj2 (proj2
    (handler_error_becomes_failed_envelope Sample.accepting
       (Sample.factory (Sample.rejecting 25 (Error (str "boom")))) None
       (Sample.event (str "Create")) Sample.context
       (DefaultLogger (Sample.event (str "Create"))) 0
       (Sample.rejecting 25 (Error (str "boom"))) 25 (Some (str "boom")) 0
       eq_refl eq_refl _ _)))).
  - left. split; [reflexivity|]. eexists. split; reflexivity.
  - vm_compute. reflexivity.
Defined.

(** C5, as stated, fails when the handler rejects after the deadline guard
    has fired: the handler registered for the event rejects with the error
    "boom", and the one envelope of the invocation has the reason "Execution
    timed out", which is another envelope than the one with the reason
    "boom". *)
Lemma late_handler_error_is_reported_as_timeout :
  matched_handler_rejects (Sample.event (str "Create")) Sample.context
    (Sample.rejecting 28000 (Error (str "boom")))
    (DefaultLogger (Sample.event (str "Create"))) 28000 (Error (str "boom"))
  /\ puts (trace (customResourceHelper Sample.accepting
                    (Sample.factory (Sample.rejecting 28000 (Error (str "boom")))) None
                    (Sample.event (str "Create")) Sample.context 0)) =
     [(27000, request_for (Sample.event (str "Create"))
                (failed_envelope (Sample.event (str "Create"))
                   (str "Execution timed out")))]
  /\ failed_envelope (Sample.event (str "Create")) (str "Execution timed out") <>
     failed_envelope (Sample.event (str "Create")) (str "boom").
Proof.
  split; [|split].
  - left. split; [reflexivity|]. eexists. split; reflexivity.
  - vm_compute. reflexivity.
  - intros H. vm_compute in H. discriminate H.
Qed.

(** ** The deadline *)

(** C6.  The deadline guard never resolves: it arms one timer with the delay
    [getRemainingTimeInMillis() - 3000] and rejects with the error "Execution
    timed out" when the timer fires, that is after exactly that delay whenever
    it is a delay the timer accepts (from 1 to 2^31 - 1), and one millisecond
    after it is armed otherwise.  When the guard fires before the
    dispatcher settles, the entry point sends a FAILED envelope with the
    reason "Execution timed out" at that moment. *)
Theorem deadline_guard_rejects (context : Context) (logger : Logger) (t : Z) :
  let delay := getRemainingTimeInMillis context t - 3000 in
  let guard := handleTimeout context logger t in
  settled guard = Some (deadline context t, Rejected (Error (str "Execution timed out")))
  /\ (forall t' a, settled guard <> Some (t', Resolved a))
  /\ timers (trace guard) = [(t, delay)]
  /\ (1 <= delay <= TIMEOUT_MAX -> deadline context t = t + delay)
  /\ (delay <= TIMEOUT_MAX -> t + delay <= deadline context t)
  /\ (forall (network : Network) (factory : ResourceHandlerFactory)
             (logFactory : option LogFactory) (event : Event) (lf : N)
             (rh : ResourceHandler) (t0 : Z),
        active_logger logFactory event context = Resolved logger ->
        factory logger = Settles lf (Resolved rh) ->
        t = t0 + Z.of_N lf ->
        (forall th r,
           settled (handleRessource network event context rh logger t) = Some (th, r) ->
           deadline context t < th) ->
        sent_with FAILED
          (trace (customResourceHelper network factory logFactory event context t0)) =
        [(deadline context t,
          request_for event (failed_envelope event (str "Execution timed out")))]).
Proof.
  intros delay guard. unfold guard. rewrite handleTimeout_run. cbn [settled trace timers].
  repeat split.
  - intros t' a. discriminate.
  - intros H. unfold deadline. fold delay. now rewrite timer_delay_in_range.
  - intros H. unfold deadline. fold delay.
    destruct (Z_le_gt_dec 1 delay) as [H1|H1].
    + rewrite timer_delay_in_range by lia. lia.
    + pose proof (timer_delay_positive delay). lia.
  - intros network factory logFactory event lf rh t0 Hlogger Hfactory -> Hlate.
    rewrite (invocation_failures _ _ _ _ _ _ _ _ Hlogger Hfactory).
    rewrite handleRessource_run, dispatch_run_settled in Hlate.
    unfold race_settled.
    destruct (dispatch_settled _ _ _ _ _) as [[th r]|].
    + rewrite first_settled_right by now apply (Hlate th r).
      reflexivity.
    + reflexivity.
Qed.

Lemma deadline_guard_rejects_witness :
  deadline Sample.context 0 = 27000 /\
  sent_with FAILED
    (trace (customResourceHelper Sample.accepting (Sample.factory Sample.hanging) None
              (Sample.event (str "Create")) Sample.context 0)) =
  [(deadline Sample.context 0,
    request_for (Sample.event (str "Create"))
      (failed_envelope (Sample.event (str "Create")) (str "Execution timed out")))].
Proof.
  pose proof (deadline_guard_rejects Sample.context
                (DefaultLogger (Sample.event (str "Create"))) 0) as (_ & _ & _ & Hd & _ & Hrun).
  split.
  - apply Hd. vm_compute. split; discriminate.
  - apply (Hrun Sample.accepting (Sample.factory Sample.hanging) None
             (Sample.event (str "Create")) 0%N Sample.hanging 0 eq_refl eq_refl eq_refl).
    intros th r H. vm_compute in H. discriminate H.
Defined.

(** ** The PUTs of an invocation *)

(** Every invocation: its envelopes by status, and its settlement. *)
Lemma customResourceHelper_outcome
  (network : Network) (factory : ResourceHandlerFactory)
  (logFactory : option LogFactory) (event : Event) (context : Context) (t : Z) :
  let run := customResourceHelper network factory logFactory event context t in
  exists (sel : Selection) (t1 : Z) (body : option (Z * Result unit)),
    puts (trace run) = dispatch_puts event context sel t1 ++ catch_puts event context body
    /\ sent_with SUCCESS (trace run) = dispatch_puts event context sel t1
    /\ sent_with FAILED (trace run) = catch_puts event context body
    /\ settled run = catch_settled network event context body.
Proof.
  intros run.
  assert (Hsplit : forall sel t1 body,
    puts (trace run) = dispatch_puts event context sel t1 ++ catch_puts event context body ->
    sent_with SUCCESS (trace run) = dispatch_puts event context sel t1 /\
    sent_with FAILED (trace run) = catch_puts event context body).
  { intros sel t1 body H. unfold sent_with. rewrite H, !filter_app.
    rewrite dispatch_puts_success, dispatch_puts_failed.
    rewrite catch_puts_success, catch_puts_failed. now rewrite app_nil_r. }
  assert (Hrun : exists sel t1 body,
    puts (trace run) = dispatch_puts event context sel t1 ++ catch_puts event context body
    /\ settled run = catch_settled network event context body).
  { unfold run. rewrite customResourceHelper_run.
    destruct (active_logger logFactory event context) as [logger|e].
    - destruct (factory logger) as [|lf [rh|e]].
      + now exists InvalidRequestType, t, None.
      + eexists _, _, _. rewrite caught_puts, caught_settled, race_puts. split; reflexivity.
      + exists InvalidRequestType, t, (Some (t + Z.of_N lf, Rejected e)).
        now rewrite catch_run_puts, catch_run_settled.
    - exists InvalidRequestType, t, (Some (t, Rejected e)).
      now rewrite catch_run_puts, catch_run_settled. }
  destruct Hrun as (sel & t1 & body & Hputs & Hsettled).
  exists sel, t1, body. destruct (Hsplit sel t1 body Hputs) as [Hs Hf]. auto.
Qed.

Lemma dispatch_puts_length (event : Event) (context : Context) (sel : Selection) (t : Z) :
  (List.length (dispatch_puts event context sel t) <= 1)%nat.
Proof. destruct sel as [| |name [|l [[pid data]|e]]]; simpl; lia. Qed.

Lemma catch_puts_length (event : Event) (context : Context)
  (body : option (Z * Result unit)) :
  (List.length (catch_puts event context body) <= 1)%nat.
Proof. destruct body as [[t [[]|[|m]]]|]; simpl; lia. Qed.

Lemma dispatch_puts_url (event : Event) (context : Context) (sel : Selection) (t : Z) :
  Forall (fun p => put_url (snd p) = ResponseURL event) (dispatch_puts event context sel t).
Proof.
  destruct sel as [| |name [|l [[pid data]|e]]]; simpl; repeat constructor.
Qed.

Lemma catch_puts_url (event : Event) (context : Context)
  (body : option (Z * Result unit)) :
  Forall (fun p => put_url (snd p) = ResponseURL event) (catch_puts event context body).
Proof. destruct body as [[t [[]|[|m]]]|]; simpl; repeat constructor. Qed.

(** A dispatcher that resolves has sent its one envelope. *)
Lemma dispatch_resolved_puts (network : Network) (event : Event) (context : Context)
  (sel : Selection) (t td : Z) :
  dispatch_settled network event context sel t = Some (td, Resolved tt) ->
  exists p, dispatch_puts event context sel t = [p].
Proof.
  destruct sel as [| |name [|l [[pid data]|e]]]; simpl; try discriminate;
    intros _; now eexists.
Qed.

(** C1, as amended.  All PUTs of an invocation go to the response URL of the
    event.  An invocation performs at most one PUT of a SUCCESS envelope and
    at most one PUT of a FAILED envelope, and no other PUT.  It performs
    exactly one PUT when the dispatcher resolves before the deadline guard
    fires (the SUCCESS envelope), when the dispatcher rejects with an error
    object before it has sent anything and before the guard fires (handler
    error, invalid request type: the FAILED envelope), and when the guard
    fires first and the dispatcher never sends anything (timeout: the FAILED
    envelope). *)
Theorem puts_per_invocation
  (network : Network) (factory : ResourceHandlerFactory)
  (logFactory : option LogFactory) (event : Event) (context : Context) (t : Z) :
  let run := customResourceHelper network factory logFactory event context t in
  Forall (fun p => put_url (snd p) = ResponseURL event) (puts (trace run))
  /\ puts (trace run) = sent_with SUCCESS (trace run) ++ sent_with FAILED (trace run)
  /\ (List.length (sent_with SUCCESS (trace run)) <= 1)%nat
  /\ (List.length (sent_with FAILED (trace run)) <= 1)%nat
  /\ (forall (logger : Logger) (lf : N) (rh : ResourceHandler),
        active_logger logFactory event context = Resolved logger ->
        factory logger = Settles lf (Resolved rh) ->
        let t1 := t + Z.of_N lf in
        let dispatch := handleRessource network event context rh logger t1 in
        (forall td,
           settled dispatch = Some (td, Resolved tt) ->
           td < deadline context t1 ->
           exists p, puts (trace dispatch) = [p] /\ puts (trace run) = [p])
        /\ (forall td message,
              settled dispatch = Some (td, Rejected (ErrorObject message)) ->
              puts (trace dispatch) = [] ->
              td < deadline context t1 ->
              puts (trace run) =
              [(td, request_for event (failed_envelope event (failure_reason message)))])
        /\ ((forall td r, settled dispatch = Some (td, r) -> deadline context t1 < td) ->
            puts (trace dispatch) = [] ->
            puts (trace run) =
            [(deadline context t1,
              request_for event (failed_envelope event (str "Execution timed out")))])).
Proof.
  intros run.
  destruct (customResourceHelper_outcome network factory logFactory event context t)
    as (sel & t0 & body & Hputs & Hs & Hf & _).
  fold run in Hputs, Hs, Hf.
  split; [|split; [|split; [|split]]].
  - rewrite Hputs. apply Forall_app. split; [apply dispatch_puts_url | apply catch_puts_url].
  - now rewrite Hs, Hf.
  - rewrite Hs. apply dispatch_puts_length.
  - rewrite Hf. apply catch_puts_length.
  - intros logger lf rh Hlogger Hfactory t1 dispatch.
    unfold run, dispatch.
    rewrite (invocation_puts _ _ _ _ _ _ _ _ Hlogger Hfactory).
    rewrite handleRessource_run, dispatch_run_puts, dispatch_run_settled.
    fold t1. unfold race_settled.
    split; [|split].
    + intros td Hd Hbefore. rewrite Hd.
      rewrite first_settled_left by lia. cbn [catch_puts].
      destruct (dispatch_resolved_puts _ _ _ _ _ _ Hd) as [p Hp].
      exists p. now rewrite Hp.
    + intros td message Hd Hnone Hbefore. rewrite Hd, Hnone.
      rewrite first_settled_left by lia. cbn [catch_puts app].
      now rewrite request_failed by apply failure_reason_truthy.
    + intros Hlate Hnone. rewrite Hnone.
      destruct (dispatch_settled _ _ _ _ _) as [[td r]|].
      * rewrite first_settled_right by now apply (Hlate td r).
        reflexivity.
      * reflexivity.
Qed.

Lemma puts_per_invocation_witness :
  exists p,
    puts (trace (handleRessource Sample.accepting (Sample.event (str "Create"))
                   Sample.context (Sample.resolving 25 Sample.result)
                   (DefaultLogger (Sample.event (str "Create"))) 0)) = [p] /\
    puts (trace (customResourceHelper Sample.accepting
                   (Sample.factory (Sample.resolving 25 Sample.result)) None
                   (Sample.event (str "Create")) Sample.context 0)) = [p].
Proof.
  refine (proj1 (proj2 (proj2 (proj2 (proj2
    (puts_per_invocation Sample.accepting
       (Sample.factory (Sample.resolving 25 Sample.result)) None
       (Sample.event (str "Create")) Sample.context 0))))
    (DefaultLogger (Sample.event (str "Create"))) 0%N
    (Sample.resolving 25 Sample.result) eq_refl eq_refl) 65 _ _).
  - vm_compute. reflexivity.
  - vm_compute. reflexivity.
Defined.

(** C1, as stated, fails when the network answers the PUT of the SUCCESS
    envelope with an error: the [catch] block of the entry point then performs
    a second PUT, of a FAILED envelope. *)
Lemma second_put_after_failed_put :
  ~ (exists p,
       puts (trace (customResourceHelper Sample.recovering
                      (Sample.factory Sample.no_handlers) None
                      (Sample.event (str "Create")) Sample.context 0)) = [p])
  /\ puts (trace (customResourceHelper Sample.recovering
                    (Sample.factory Sample.no_handlers) None
                    (Sample.event (str "Create")) Sample.context 0)) =
     [(0, request_for (Sample.event (str "Create"))
            (success_envelope (Sample.event (str "Create")) (str "None") JSON.empty_object));
      (40, request_for (Sample.event (str "Create"))
             (failed_envelope (Sample.event (str "Create"))
                (str "Request failed with status code 503")))].
Proof.
  assert (H : puts (trace (customResourceHelper Sample.recovering
                    (Sample.factory Sample.no_handlers) None
                    (Sample.event (str "Create")) Sample.context 0)) =
     [(0, request_for (Sample.event (str "Create"))
            (success_envelope (Sample.event (str "Create")) (str "None") JSON.empty_object));
      (40, request_for (Sample.event (str "Create"))
             (failed_envelope (Sample.event (str "Create"))
                (str "Request failed with status code 503")))])
    by (vm_compute; reflexivity).
  split; [|exact H].
  intros [p Hp]. rewrite H in Hp. discriminate Hp.
Qed.

(** ** Delivery failures *)

Lemma sendResponse_rejected (network : Network) (event : Event) (context : Context)
  (logger : Logger) (d : Details.t) (t : Z) (l : N) (e : Thrown) :
  network t (request event context d) = Settles l (Rejected e) ->
  errors_logged (trace (sendResponse network event context d logger t)) =
  [ (t + Z.of_N l, LogString (str "sendResponse(...) failed executing axios.put:"));
    (t + Z.of_N l, LogThrown e) ].
Proof.
  intros H.
  unfold sendResponse, try_catch, bind, logger_debug, logger_error, perform, axios_put.
  unfold request, request_for in H. cbn [trace settled]. rewrite H. reflexivity.
Qed.

Lemma catch_puts_singleton (event : Event) (context : Context)
  (body : option (Z * Result unit)) (t : Z) (p : PutRequest) :
  catch_puts event context body = [(t, p)] ->
  exists message,
    body = Some (t, Rejected (ErrorObject message)) /\
    p = request event context (failed_details (failure_reason message)).
Proof.
  destruct body as [[t' [[]|[|m]]]|]; simpl; try discriminate.
  intros H. injection H as -> <-. now exists m.
Qed.

Lemma dispatch_puts_singleton (network : Network) (event : Event) (context : Context)
  (sel : Selection) (t ts : Z) (p : PutRequest) :
  dispatch_puts event context sel t = [(ts, p)] ->
  exists d, p = request event context d /\
            dispatch_settled network event context sel t =
            delivery network event context d ts.
Proof.
  destruct sel as [| |name [|l [[pid data]|e]]]; simpl; try discriminate;
    intros H; injection H as <- <-; now eexists.
Qed.

(** C7, as amended.  A PUT that fails is logged and re-raised by
    [sendResponse], which does not try again.  When it is the PUT of the FAILED
    envelope that fails, the promise of the entry point rejects with the
    delivery error.  When it is the PUT of the SUCCESS envelope that fails,
    with an error object and before the deadline guard fires, the [catch]
    block of the entry point sends a FAILED envelope whose reason is the
    message of the delivery error. *)
Theorem delivery_failure_handling
  (network : Network) (event : Event) (context : Context) :
  (forall (logger : Logger) (d : Details.t) (t : Z) (l : N) (e : Thrown),
     network t (request event context d) = Settles l (Rejected e) ->
     let r := sendResponse network event context d logger t in
     settled r = Some (t + Z.of_N l, Rejected e)
     /\ puts (trace r) = [(t, request event context d)]
     /\ errors_logged (trace r) =
          [ (t + Z.of_N l, LogString (str "sendResponse(...) failed executing axios.put:"));
            (t + Z.of_N l, LogThrown e) ])
  /\ (forall (factory : ResourceHandlerFactory) (logFactory : option LogFactory)
             (t : Z) (tf : Z) (p : PutRequest) (l : N) (e : Thrown),
        let run := customResourceHelper network factory logFactory event context t in
        sent_with FAILED (trace run) = [(tf, p)] ->
        network tf p = Settles l (Rejected e) ->
        settled run = Some (tf + Z.of_N l, Rejected e))
  /\ (forall (factory : ResourceHandlerFactory) (logFactory : option LogFactory)
             (t : Z) (logger : Logger) (lf : N) (rh : ResourceHandler)
             (ts : Z) (p : PutRequest) (l : N) (message : option jsstring),
        let run := customResourceHelper network factory logFactory event context t in
        active_logger logFactory event context = Resolved logger ->
        factory logger = Settles lf (Resolved rh) ->
        sent_with SUCCESS (trace run) = [(ts, p)] ->
        network ts p = Settles l (Rejected (ErrorObject message)) ->
        ts + Z.of_N l < deadline context (t + Z.of_N lf) ->
        sent_with FAILED (trace run) =
        [(ts + Z.of_N l, request_for event (failed_envelope event (failure_reason message)))]).
Proof.
  split; [|split].
  - intros logger d t l e H r. unfold r.
    rewrite sendResponse_settled, sendResponse_puts, (sendResponse_rejected _ _ _ _ _ _ _ _ H).
    unfold delivery. now rewrite H.
  - intros factory logFactory t tf p l e run Hsent Hnet.
    destruct (customResourceHelper_outcome network factory logFactory event context t)
      as (sel & t1 & body & _ & _ & Hf & Hsettled).
    fold run in Hf, Hsettled. rewrite Hf in Hsent.
    destruct (catch_puts_singleton _ _ _ _ _ Hsent) as (m & -> & ->).
    rewrite Hsettled. cbn [catch_settled]. unfold delivery. now rewrite Hnet.
  - intros factory logFactory t logger lf rh ts p l message run Hlogger Hfactory
      Hsent Hnet Hbefore.
    unfold run in *.
    rewrite (invocation_successes _ _ _ _ _ _ _ _ Hlogger Hfactory) in Hsent.
    rewrite (invocation_failures _ _ _ _ _ _ _ _ Hlogger Hfactory).
    destruct (dispatch_puts_singleton network _ _ _ _ _ _ Hsent) as (d & -> & Hd).
    unfold race_settled. rewrite Hd. unfold delivery. rewrite Hnet.
    rewrite first_settled_left by lia. cbn [catch_puts].
    now rewrite request_failed by apply failure_reason_truthy.
Qed.

Lemma delivery_failure_handling_witness :
  settled (customResourceHelper Sample.refusing (Sample.factory Sample.no_handlers) None
             (Sample.event (str "Replace")) Sample.context 0) =
  Some (40, Rejected (Error (str "Network Error"))).
Proof.
  refine (proj1 (proj2
    (delivery_failure_handling Sample.refusing (Sample.event (str "Replace"))
       Sample.context))
    (Sample.factory Sample.no_handlers) None 0 0
    (request_for (Sample.event (str "Replace"))
       (failed_envelope (Sample.event (str "Replace")) (str "Invalid RequestType received")))
    40%N (Error (str "Network Error")) _ eq_refl).
  vm_compute. reflexivity.
Defined.

(** C7, as stated, fails when it is the PUT of the SUCCESS envelope that the
    network answers with an error: the delivery failure is turned into a
    second callback, a FAILED envelope, and once that one is accepted the
    promise of the entry point resolves. *)
Lemma failed_put_is_converted :
  Sample.recovering 0
    (request_for (Sample.event (str "Create"))
       (success_envelope (Sample.event (str "Create")) (str "None") JSON.empty_object)) =
  Settles 40 (Rejected (Error (str "Request failed with status code 503")))
  /\ sent_with FAILED
       (trace (customResourceHelper Sample.recovering (Sample.factory Sample.no_handlers)
                 None (Sample.event (str "Create")) Sample.context 0)) =
     [(40, request_for (Sample.event (str "Create"))
             (failed_envelope (Sample.event (str "Create"))
                (str "Request failed with status code 503")))]
  /\ settled (customResourceHelper Sample.recovering (Sample.factory Sample.no_handlers)
                None (Sample.event (str "Create")) Sample.context 0) =
     Some (80, Resolved tt).
Proof. repeat split; vm_compute; reflexivity. Qed.

(** ** The request on the wire *)

(** Every call of [sendResponse] performs one PUT, to the response URL of the
    event; its body is the JSON text of an object with the seven members of a
    CloudFormation response in this order and spelling, its content type is
    the empty string and its content length is the [length] of the body. *)
Lemma sendResponse_request (network : Network) (event : Event) (context : Context)
  (d : Details.t) (logger : Logger) (t : Z) :
  exists object request,
    puts (trace (sendResponse network event context d logger t)) = [(t, request)]
    /\ put_url request = ResponseURL event
    /\ put_body request = JSON.stringify object
    /\ JSON.keys object =
         [ str "Status"; str "Reason"; str "PhysicalResourceId"; str "StackId";
           str "RequestId"; str "LogicalResourceId"; str "Data" ]
    /\ content_type request = []
    /\ content_length request = Js.length (put_body request).
Proof.
  exists (responseObject event context d), (request event context d).
  rewrite sendResponse_puts. repeat split.
Qed.

(** On ASCII text the two measures of a string agree. *)
Lemma utf8_length_ascii (s : jsstring) :
  Forall (fun c => (c < 128)%N) s -> Js.utf8_length s = Js.length s.
Proof.
  unfold Js.length. induction 1 as [|c r Hc Hr IH].
  - reflexivity.
  - cbn [Js.utf8_length List.length]. apply N.ltb_lt in Hc. rewrite Hc, IH. lia.
Qed.

(** C8.  The content length of a PUT is the number of UTF-16 code units of
    its body, which is not its size in bytes when the body has a character
    outside ASCII: for a handler result with the attribute value "Jos" +
    U+00E9 the header says 228 and the body takes 229 bytes. *)
Theorem content_length_is_not_byte_length :
  List.map (fun p => (content_length (snd p), Js.utf8_length (put_body (snd p))))
    (puts (trace (customResourceHelper Sample.accepting
                    (Sample.factory (Sample.resolving 25 Sample.accented)) None
                    (Sample.event (str "Create")) Sample.context 0))) =
  [(228, 229)].
Proof. vm_compute. reflexivity. Qed.

(** ** Further paths *)

(** A handler that rejects with [undefined]: the [catch] block fails on
    [error.message], nothing is sent and the entry point rejects. *)
Example rejection_without_value :
  let run := customResourceHelper Sample.accepting
               (Sample.factory (Sample.rejecting 25 (Nullish Undefined))) None
               (Sample.event (str "Create")) Sample.context 0 in
  puts (trace run) = [] /\
  settled run = Some (25, Rejected (TypeError_message Undefined)).
Proof. split; vm_compute; reflexivity. Qed.

(** A PUT of the SUCCESS envelope that the network never answers: the guard
    fires and the FAILED envelope is sent as well. *)
Example guard_fires_during_put :
  let silent : Network := fun t _ => if t =? 0 then Pending
                                     else Settles 40 (Resolved {| status := 200 |}) in
  let run := customResourceHelper silent (Sample.factory Sample.no_handlers) None
               (Sample.event (str "Create")) Sample.context 0 in
  List.map fst (puts (trace run)) = [0; 27000] /\
  List.map fst (sent_with FAILED (trace run)) = [27000] /\
  settled run = Some (27040, Resolved tt).
Proof. repeat split; vm_compute; reflexivity. Qed.

(** A handler that resolves after the guard has fired: the FAILED envelope
    goes out at the deadline, the SUCCESS envelope when the handler is done. *)
Example handler_resolves_after_deadline :
  let run := customResourceHelper Sample.accepting
               (Sample.factory (Sample.resolving 28000 Sample.result)) None
               (Sample.event (str "Create")) Sample.context 0 in
  List.map fst (sent_with FAILED (trace run)) = [27000] /\
  List.map fst (sent_with SUCCESS (trace run)) = [28000] /\
  settled run = Some (27040, Resolved tt).
Proof. repeat split; vm_compute; reflexivity. Qed.

(** * Further properties *)

(** ** Traces, effect by effect *)

Lemma loggers_app (a b : list (Z * Effect)) : loggers (a ++ b) = loggers a ++ loggers b.
Proof.
  induction a as [|[t e] a IH]; simpl; [reflexivity|].
  destruct e; simpl; now rewrite IH.
Qed.

Lemma timers_app (a b : list (Z * Effect)) : timers (a ++ b) = timers a ++ timers b.
Proof.
  induction a as [|[t e] a IH]; simpl; [reflexivity|].
  destruct e; simpl; now rewrite IH.
Qed.

Lemma errors_logged_app (a b : list (Z * Effect)) :
  errors_logged (a ++ b) = errors_logged a ++ errors_logged b.
Proof.
  induction a as [|[t e] a IH]; simpl; [reflexivity|].
  destruct e as [l [] arg| | |]; simpl; now rewrite IH.
Qed.

Lemma sendResponse_trace (network : Network) (event : Event) (context : Context)
  (d : Details.t) (logger : Logger) (t : Z) :
  trace (sendResponse network event context d logger t) =
  send_trace network event context d logger t.
Proof.
  unfold send_trace, sendResponse, request, request_for, try_catch, bind, logger_debug,
    logger_info, logger_error, perform, axios_put.
  cbn [trace settled put_url put_body].
  destruct (network t _) as [|l [a|e]]; reflexivity.
Qed.

Section Effects.

Variable network : Network.
Variables (event : Event) (context : Context) (logger : Logger).

Lemma send_trace_loggers (d : Details.t) (t : Z) :
  Forall (eq logger) (loggers (send_trace network event context d logger t)).
Proof.
  unfold send_trace. rewrite loggers_app. apply Forall_app. split.
  - repeat constructor.
  - destruct (network t _) as [|l [a|e]]; repeat constructor.
Qed.

Lemma send_trace_timers (d : Details.t) (t : Z) :
  timers (send_trace network event context d logger t) = [].
Proof.
  unfold send_trace. rewrite timers_app.
  destruct (network t _) as [|l [a|e]]; reflexivity.
Qed.

Lemma dispatch_run_loggers (sel : Selection) (t : Z) :
  Forall (eq logger) (loggers (trace (dispatch_run network event context logger sel t))).
Proof.
  destruct sel as [| |name [|l [[pid data]|e]]]; cbn [dispatch_run trace loggers];
    try rewrite sendResponse_trace;
    (apply Forall_cons; [reflexivity|]);
    first [apply Forall_nil | apply send_trace_loggers].
Qed.

Lemma dispatch_run_timers (sel : Selection) (t : Z) :
  timers (trace (dispatch_run network event context logger sel t)) = [].
Proof.
  destruct sel as [| |name [|l [[pid data]|e]]]; cbn [dispatch_run trace timers];
    try rewrite sendResponse_trace; try reflexivity; apply send_trace_timers.
Qed.

Lemma catch_run_loggers (e : Thrown) (t : Z) :
  Forall (eq logger) (loggers (trace (catch_run network event context logger e t))).
Proof.
  destruct e; cbn [catch_run trace loggers]; try rewrite sendResponse_trace;
    (apply Forall_cons; [reflexivity|]);
    first [apply Forall_nil | apply send_trace_loggers].
Qed.

Lemma catch_run_timers (e : Thrown) (t : Z) :
  timers (trace (catch_run network event context logger e t)) = [].
Proof.
  destruct e; cbn [catch_run trace timers]; try rewrite sendResponse_trace;
    try reflexivity.
  apply send_trace_timers.
Qed.

(** The trace of the [try] of an invocation whose factory has resolved. *)
Lemma ready_trace (rh : ResourceHandler) (t : Z) :
  let sel := select event context rh logger in
  trace (caught network event context logger
           (race (handleRessource network event context rh logger)
                 (handleTimeout context logger) t)) =
  trace (dispatch_run network event context logger sel t) ++
  [ (t, SetTimeout (getRemainingTimeInMillis context t - 3000));
    (deadline context t, Log logger LevelError guard_message) ] ++
  match race_settled network event context sel t with
  | Some (t', Rejected e) => trace (catch_run network event context logger e t')
  | _ => []
  end.
Proof.
  intros sel. unfold caught. rewrite race_settles. fold sel.
  unfold race. cbn [trace]. rewrite handleRessource_run, handleTimeout_run. fold sel.
  cbn [trace].
  destruct (race_settled network event context sel t) as [[t' [[]|e]]|];
    cbn [trace]; rewrite <- ?app_assoc; reflexivity.
Qed.

End Effects.

(** ** Failures before the race *)

(** X1.  When the caller's log factory throws an error, the entry point
    reports it: one PUT, of a FAILED envelope whose reason is the message of
    the error (or "Internal Error"), issued at once; no handler is invoked, no
    timer is armed, every log call goes to the default logger, and the promise
    of the entry point settles as that PUT does. *)
Theorem log_factory_error_is_reported
  (network : Network) (factory : ResourceHandlerFactory) (f : LogFactory)
  (event : Event) (context : Context) (message : option jsstring) (t : Z)
  (Hthrows : f event context = Rejected (ErrorObject message)) :
  let run := customResourceHelper network factory (Some f) event context t in
  puts (trace run) =
    [(t, request_for event (failed_envelope event (failure_reason message)))]
  /\ invocations (trace run) = []
  /\ timers (trace run) = []
  /\ Forall (eq (defaultLogFactory event)) (loggers (trace run))
  /\ hd_error (errors_logged (trace run)) = Some (t, LogThrown (ErrorObject message))
  /\ settled run =
       delivery network event context (failed_details (failure_reason message)) t.
Proof.
  intros run. unfold run. rewrite customResourceHelper_run.
  unfold active_logger. rewrite Hthrows.
  rewrite catch_run_puts, catch_run_invocations, catch_run_timers, catch_run_settled.
  cbn [catch_puts catch_settled].
  rewrite request_failed by apply failure_reason_truthy.
  repeat split. apply catch_run_loggers.
Qed.

Lemma log_factory_error_is_reported_witness :
  puts (trace (customResourceHelper Sample.accepting (Sample.factory Sample.no_handlers)
                 (Some (fun _ _ => Rejected (Error (str "no log group"))))
                 (Sample.event (str "Create")) Sample.context 0)) =
  [(0, request_for (Sample.event (str "Create"))
         (failed_envelope (Sample.event (str "Create")) (str "no log group")))].
Proof.
  exact (proj1
    (log_factory_error_is_reported Sample.accepting (Sample.factory Sample.no_handlers)
       (fun _ _ => Rejected (Error (str "no log group")))
       (Sample.event (str "Create")) Sample.context (Some (str "no log group")) 0
       eq_refl)).
Defined.

(** X2.  When the handler factory throws or rejects with an error, the entry
    point reports it at that moment: one PUT, of a FAILED envelope whose
    reason is the message of the error (or "Internal Error"); no handler is
    invoked and no timer is armed, and the promise of the entry point settles
    as that PUT does. *)
Theorem handler_factory_error_is_reported
  (network : Network) (factory : ResourceHandlerFactory)
  (logFactory : option LogFactory) (event : Event) (context : Context)
  (logger : Logger) (lf : N) (message : option jsstring) (t : Z)
  (Hlogger : active_logger logFactory event context = Resolved logger)
  (Hrejects : factory logger = Settles lf (Rejected (ErrorObject message))) :
  let run := customResourceHelper network factory logFactory event context t in
  puts (trace run) =
    [(t + Z.of_N lf, request_for event (failed_envelope event (failure_reason message)))]
  /\ invocations (trace run) = []
  /\ timers (trace run) = []
  /\ hd_error (errors_logged (trace run)) =
       Some (t + Z.of_N lf, LogThrown (ErrorObject message))
  /\ settled run =
       delivery network event context (failed_details (failure_reason message))
         (t + Z.of_N lf).
Proof.
  intros run. unfold run. rewrite customResourceHelper_run, Hlogger, Hrejects.
  rewrite catch_run_puts, catch_run_invocations, catch_run_timers, catch_run_settled.
  cbn [catch_puts catch_settled].
  rewrite request_failed by apply failure_reason_truthy.
  repeat split.
Qed.

Lemma handler_factory_error_is_reported_witness :
  puts (trace (customResourceHelper Sample.accepting
                 (fun _ => Settles 15 (Rejected (Error (str "no secret")))) None
                 (Sample.event (str "Update")) Sample.context 0)) =
  [(15, request_for (Sample.event (str "Update"))
          (failed_envelope (Sample.event (str "Update")) (str "no secret")))].
Proof.
  exact (proj1
    (handler_factory_error_is_reported Sample.accepting
       (fun _ => Settles 15 (Rejected (Error (str "no secret")))) None
       (Sample.event (str "Update")) Sample.context
       (DefaultLogger (Sample.event (str "Update"))) 15 (Some (str "no secret")) 0
       eq_refl eq_refl)).
Defined.

(** ** The timer *)

(** X3.  The deadline guard covers the race only.  An invocation arms at most
    one timer: exactly one, at the moment the handler factory resolves and
    with the remaining time of that moment less 3000 ms, and none if the
    factory rejects.  While the promise of the factory stays pending the
    invocation does nothing at all and never settles. *)
Theorem guard_is_armed_when_factory_resolves
  (network : Network) (factory : ResourceHandlerFactory)
  (logFactory : option LogFactory) (event : Event) (context : Context) (t : Z) :
  let run := customResourceHelper network factory logFactory event context t in
  (List.length (timers (trace run)) <= 1)%nat
  /\ (forall logger lf rh,
        active_logger logFactory event context = Resolved logger ->
        factory logger = Settles lf (Resolved rh) ->
        timers (trace run) =
        [(t + Z.of_N lf, getRemainingTimeInMillis context (t + Z.of_N lf) - 3000)])
  /\ (forall logger lf e,
        active_logger logFactory event context = Resolved logger ->
        factory logger = Settles lf (Rejected e) ->
        timers (trace run) = [])
  /\ (forall logger,
        active_logger logFactory event context = Resolved logger ->
        factory logger = Pending ->
        trace run = [] /\ settled run = None).
Proof.
  intros run.
  assert (Hready : forall logger lf rh,
    active_logger logFactory event context = Resolved logger ->
    factory logger = Settles lf (Resolved rh) ->
    timers (trace run) =
    [(t + Z.of_N lf, getRemainingTimeInMillis context (t + Z.of_N lf) - 3000)]).
  { intros logger lf rh Hl Hf. unfold run.
    rewrite customResourceHelper_run, Hl, Hf, ready_trace.
    rewrite !timers_app, dispatch_run_timers. cbn [timers app].
    destruct (race_settled _ _ _ _ _) as [[t' [[]|e]]|]; try reflexivity.
    now rewrite catch_run_timers. }
  split; [|split; [exact Hready|split]].
  - destruct (active_logger logFactory event context) as [logger|e] eqn:Hl.
    + destruct (factory logger) as [|lf [rh|e]] eqn:Hf.
      * unfold run. rewrite customResourceHelper_run, Hl, Hf. simpl; lia.
      * rewrite (Hready logger lf rh eq_refl Hf). simpl; lia.
      * unfold run. rewrite customResourceHelper_run, Hl, Hf, catch_run_timers.
        simpl; lia.
    + unfold run. rewrite customResourceHelper_run, Hl, catch_run_timers. simpl; lia.
  - intros logger lf e Hl Hf. unfold run.
    now rewrite customResourceHelper_run, Hl, Hf, catch_run_timers.
  - intros logger Hl Hf. unfold run.
    now rewrite customResourceHelper_run, Hl, Hf.
Qed.

Lemma guard_is_armed_when_factory_resolves_witness :
  timers (trace (customResourceHelper Sample.accepting
                   (fun _ => Settles 500 (Resolved Sample.no_handlers)) None
                   (Sample.event (str "Create")) Sample.context 0)) =
  [(500, 26500)].
Proof.
  exact (proj1 (proj2
    (guard_is_armed_when_factory_resolves Sample.accepting
       (fun _ => Settles 500 (Resolved Sample.no_handlers)) None
       (Sample.event (str "Create")) Sample.context 0))
    (DefaultLogger (Sample.event (str "Create"))) 500%N Sample.no_handlers
    eq_refl eq_refl).
Defined.

(** X4.  The timer of the guard is never cleared: once the handler factory
    has resolved, the guard logs its error at the deadline in every
    invocation, however the race ends. *)
Theorem guard_timer_is_never_cleared
  (network : Network) (factory : ResourceHandlerFactory)
  (logFactory : option LogFactory) (event : Event) (context : Context)
  (logger : Logger) (lf : N) (rh : ResourceHandler) (t : Z)
  (Hlogger : active_logger logFactory event context = Resolved logger)
  (Hfactory : factory logger = Settles lf (Resolved rh)) :
  In (deadline context (t + Z.of_N lf), guard_message)
     (errors_logged
        (trace (customResourceHelper network factory logFactory event context t))).
Proof.
  rewrite customResourceHelper_run, Hlogger, Hfactory, ready_trace.
  rewrite !errors_logged_app. apply in_or_app. right. apply in_or_app. left.
  simpl. now left.
Qed.

Lemma guard_timer_is_never_cleared_witness :
  settled (customResourceHelper Sample.accepting (Sample.factory Sample.no_handlers) None
             (Sample.event (str "Create")) Sample.context 0) = Some (40, Resolved tt) /\
  In (27000, guard_message)
     (errors_logged
        (trace (customResourceHelper Sample.accepting (Sample.factory Sample.no_handlers)
                  None (Sample.event (str "Create")) Sample.context 0))).
Proof.
  split; [reflexivity|].
  exact (guard_timer_is_never_cleared Sample.accepting
           (Sample.factory Sample.no_handlers) None (Sample.event (str "Create"))
           Sample.context (DefaultLogger (Sample.event (str "Create"))) 0
           Sample.no_handlers 0 eq_refl eq_refl).
Defined.

(** X5.  Every log call of an invocation goes to one logger: the one the
    caller's log factory returned, or the default one when there is no log
    factory or it threw. *)
Theorem logs_go_to_the_logger_in_use
  (network : Network) (factory : ResourceHandlerFactory)
  (logFactory : option LogFactory) (event : Event) (context : Context) (t : Z) :
  Forall (eq (logger_in_use logFactory event context))
    (loggers (trace (customResourceHelper network factory logFactory event context t))).
Proof.
  rewrite customResourceHelper_run. unfold logger_in_use.
  destruct (active_logger logFactory event context) as [logger|e].
  - destruct (factory logger) as [|lf [rh|e]].
    + constructor.
    + rewrite ready_trace, !loggers_app.
      repeat (apply Forall_app; split).
      * apply dispatch_run_loggers.
      * repeat constructor.
      * destruct (race_settled _ _ _ _ _) as [[t' [[]|e]]|]; try constructor.
        apply catch_run_loggers.
    + apply catch_run_loggers.
  - apply catch_run_loggers.
Qed.

(** ** How the entry point settles *)

Lemma delivery_resolved (network : Network) (event : Event) (context : Context)
  (d : Details.t) (t ts : Z) :
  delivery network event context d t = Some (ts, Resolved tt) ->
  exists l a, network t (request event context d) = Settles l (Resolved a) /\
              ts = t + Z.of_N l.
Proof.
  unfold delivery. destruct (network t _) as [|l [a|e]]; try discriminate.
  intros H. injection H as <-. now exists l, a.
Qed.

Lemma delivery_rejected (network : Network) (event : Event) (context : Context)
  (d : Details.t) (t ts : Z) (e : Thrown) :
  delivery network event context d t = Some (ts, Rejected e) ->
  exists l, network t (request event context d) = Settles l (Rejected e) /\
            ts = t + Z.of_N l.
Proof.
  unfold delivery. destruct (network t _) as [|l [a|e']]; try discriminate.
  intros H. injection H as <- <-. now exists l.
Qed.

Lemma dispatch_resolved_delivery (network : Network) (event : Event) (context : Context)
  (sel : Selection) (t ts : Z) :
  dispatch_settled network event context sel t = Some (ts, Resolved tt) ->
  exists tp d, dispatch_puts event context sel t = [(tp, request event context d)] /\
               delivery network event context d tp = Some (ts, Resolved tt).
Proof.
  destruct sel as [| |name [|l [[pid data]|e]]]; simpl; try discriminate;
    intros H; eexists _, _; split; try reflexivity; exact H.
Qed.

Lemma race_resolved (network : Network) (event : Event) (context : Context)
  (sel : Selection) (t ts : Z) :
  race_settled network event context sel t = Some (ts, Resolved tt) ->
  dispatch_settled network event context sel t = Some (ts, Resolved tt).
Proof.
  unfold race_settled.
  destruct (dispatch_settled network event context sel t) as [[td r]|]; simpl.
  - destruct (td <=? deadline context t); intros H; [exact H | discriminate H].
  - discriminate.
Qed.

(** Every invocation: the PUTs, the settlement, and where the settlement of
    the [try] body comes from. *)
Lemma customResourceHelper_stages
  (network : Network) (factory : ResourceHandlerFactory)
  (logFactory : option LogFactory) (event : Event) (context : Context) (t : Z) :
  let run := customResourceHelper network factory logFactory event context t in
  exists (sel : Selection) (t1 : Z) (body : option (Z * Result unit)),
    puts (trace run) = dispatch_puts event context sel t1 ++ catch_puts event context body
    /\ settled run = catch_settled network event context body
    /\ (body = None \/ (exists t' e, body = Some (t', Rejected e)) \/
        body = race_settled network event context sel t1).
Proof.
  intros run. unfold run. rewrite customResourceHelper_run.
  destruct (active_logger logFactory event context) as [logger|e].
  - destruct (factory logger) as [|lf [rh|e]].
    + exists InvalidRequestType, t, None. auto.
    + exists (select event context rh logger), (t + Z.of_N lf),
        (race_settled network event context (select event context rh logger)
           (t + Z.of_N lf)).
      rewrite caught_puts, caught_settled, race_puts, race_settles. auto.
    + exists InvalidRequestType, t, (Some (t + Z.of_N lf, Rejected e)).
      rewrite catch_run_puts, catch_run_settled. repeat split. right; left; eauto.
  - exists InvalidRequestType, t, (Some (t, Rejected e)).
    rewrite catch_run_puts, catch_run_settled. repeat split. right; left; eauto.
Qed.

Lemma catch_run_rejects (network : Network) (event : Event) (context : Context)
  (logger : Logger) (e' e : Thrown) (t' ts : Z) :
  catch_settled network event context (Some (t', Rejected e')) = Some (ts, Rejected e) ->
  (exists tf p l,
      catch_puts event context (Some (t', Rejected e')) = [(tf, p)] /\
      network tf p = Settles l (Rejected e) /\ ts = tf + Z.of_N l)
  \/ (exists v,
        e = TypeError_message v /\
        In (ts, LogThrown (Nullish v))
           (errors_logged (trace (catch_run network event context logger e' t'))) /\
        catch_puts event context (Some (t', Rejected e')) = []).
Proof.
  intros H. destruct e' as [v|m]; cbn [catch_settled catch_puts catch_run trace] in *.
  - right. injection H as <- <-. exists v. repeat split. simpl. now left.
  - left. destruct (delivery_rejected _ _ _ _ _ _ _ H) as (l & Hnet & ->).
    now exists t', (request event context (failed_details (failure_reason m))), l.
Qed.

(** X6.  The promise of the entry point rejects in two cases only: the
    network refused the PUT of the FAILED envelope, and the promise rejects
    with that delivery error when the refusal arrives; or the value caught was
    [undefined] or [null], no FAILED envelope is sent and the promise rejects
    with the TypeError of reading [message] on that value.  No error of a
    handler, a factory or the deadline guard reaches the caller of the entry
    point as such. *)
Theorem entry_point_rejects_only_on_delivery_failure
  (network : Network) (factory : ResourceHandlerFactory)
  (logFactory : option LogFactory) (event : Event) (context : Context)
  (t ts : Z) (e : Thrown) :
  let run := customResourceHelper network factory logFactory event context t in
  settled run = Some (ts, Rejected e) ->
  (exists tf p l,
      sent_with FAILED (trace run) = [(tf, p)] /\
      network tf p = Settles l (Rejected e) /\
      ts = tf + Z.of_N l)
  \/ (exists v,
        e = TypeError_message v /\
        In (ts, LogThrown (Nullish v)) (errors_logged (trace run)) /\
        sent_with FAILED (trace run) = []).
Proof.
  intros run Hsettled. unfold run in *. unfold sent_with.
  rewrite customResourceHelper_run in *.
  destruct (active_logger logFactory event context) as [logger|e0].
  - destruct (factory logger) as [|lf [rh|e0]].
    + discriminate Hsettled.
    + rewrite caught_settled, race_settles in Hsettled.
      rewrite caught_puts, race_puts, race_settles, filter_app.
      rewrite dispatch_puts_failed, catch_puts_failed, ready_trace. cbn [app].
      destruct (race_settled network event context (select event context rh logger)
                  (t + Z.of_N lf)) as [[t' [[]|e']]|];
        try discriminate Hsettled.
      destruct (catch_run_rejects network event context logger e' e t' ts Hsettled)
        as [H|(v & He & Hin & Hnone)]; [now left|].
      right. exists v. repeat split; auto.
      rewrite errors_logged_app. apply in_or_app. right.
      cbn [errors_logged]. right. exact Hin.
    + rewrite catch_run_settled in Hsettled.
      rewrite catch_run_puts, catch_puts_failed.
      now apply catch_run_rejects.
  - rewrite catch_run_settled in Hsettled.
    rewrite catch_run_puts, catch_puts_failed.
    now apply catch_run_rejects.
Qed.

Lemma entry_point_rejects_only_on_delivery_failure_witness :
  (exists tf p l,
      sent_with FAILED
        (trace (customResourceHelper Sample.refusing
                  (Sample.factory (Sample.rejecting 25 (Error (str "boom")))) None
                  (Sample.event (str "Create")) Sample.context 0)) = [(tf, p)] /\
      Sample.refusing tf p = Settles l (Rejected (Error (str "Network Error"))) /\
      65 = tf + Z.of_N l)
  \/ (exists v,
        Error (str "Network Error") = TypeError_message v /\
        In (65, LogThrown (Nullish v))
           (errors_logged
              (trace (customResourceHelper Sample.refusing
                        (Sample.factory (Sample.rejecting 25 (Error (str "boom")))) None
                        (Sample.event (str "Create")) Sample.context 0))) /\
        sent_with FAILED
          (trace (customResourceHelper Sample.refusing
                    (Sample.factory (Sample.rejecting 25 (Error (str "boom")))) None
                    (Sample.event (str "Create")) Sample.context 0)) = []).
Proof.
  exact (entry_point_rejects_only_on_delivery_failure Sample.refusing
           (Sample.factory (Sample.rejecting 25 (Error (str "boom")))) None
           (Sample.event (str "Create")) Sample.context 0 65
           (Error (str "Network Error")) eq_refl).
Defined.

(** X7.  The promise of the entry point resolves only when the network has
    accepted one of the PUTs of the invocation, and at the moment the answer
    to that PUT arrives. *)
Theorem entry_point_resolves_on_accepted_put
  (network : Network) (factory : ResourceHandlerFactory)
  (logFactory : option LogFactory) (event : Event) (context : Context) (t ts : Z) :
  let run := customResourceHelper network factory logFactory event context t in
  settled run = Some (ts, Resolved tt) ->
  exists tp p l a,
    In (tp, p) (puts (trace run)) /\
    network tp p = Settles l (Resolved a) /\
    ts = tp + Z.of_N l.
Proof.
  intros run Hsettled.
  destruct (customResourceHelper_stages network factory logFactory event context t)
    as (sel & t1 & body & Hputs & Hs & Hbody).
  fold run in Hputs, Hs. rewrite Hs in Hsettled. rewrite Hputs.
  destruct body as [[t' [[]|[|m]]]|]; cbn [catch_settled catch_puts] in *;
    try discriminate.
  - destruct Hbody as [Hb|[(t2 & e & Hb)|Hb]]; try discriminate.
    injection Hsettled as <-.
    symmetry in Hb. apply race_resolved in Hb.
    destruct (dispatch_resolved_delivery _ _ _ _ _ _ Hb) as (tp & d & Hd & Hdel).
    destruct (delivery_resolved _ _ _ _ _ _ Hdel) as (l & a & Hnet & ->).
    exists tp, (request event context d), l, a. rewrite Hd. repeat split; auto.
    rewrite app_nil_r. now left.
  - destruct (delivery_resolved _ _ _ _ _ _ Hsettled) as (l & a & Hnet & ->).
    exists t', (request event context (failed_details (failure_reason m))), l, a.
    repeat split; auto. apply in_or_app. right. now left.
Qed.

Lemma entry_point_resolves_on_accepted_put_witness :
  exists tp p l a,
    In (tp, p)
       (puts (trace (customResourceHelper Sample.recovering
                       (Sample.factory Sample.no_handlers) None
                       (Sample.event (str "Create")) Sample.context 0))) /\
    Sample.recovering tp p = Settles l (Resolved a) /\
    80 = tp + Z.of_N l.
Proof.
  exact (entry_point_resolves_on_accepted_put Sample.recovering
           (Sample.factory Sample.no_handlers) None
           (Sample.event (str "Create")) Sample.context 0 80 eq_refl).
Defined.

(** ** What the answer of the network is used for *)

Section StatusCodes.

Variables (net1 net2 : Network).
Hypothesis Hsame : forall t r, same_up_to_status (net1 t r) (net2 t r).
Variables (event : Event) (context : Context).

Lemma delivery_same (d : Details.t) (t : Z) :
  delivery net1 event context d t = delivery net2 event context d t.
Proof.
  unfold delivery. specialize (Hsame t (request event context d)).
  destruct (net1 t _) as [|l1 [a1|e1]], (net2 t _) as [|l2 [a2|e2]];
    simpl in Hsame; try contradiction; try reflexivity.
  - now subst.
  - destruct Hsame as [-> ->]. reflexivity.
Qed.

Lemma dispatch_settled_same (sel : Selection) (t : Z) :
  dispatch_settled net1 event context sel t = dispatch_settled net2 event context sel t.
Proof.
  destruct sel as [| |name [|l [[pid data]|e]]]; simpl; try reflexivity;
    apply delivery_same.
Qed.

Lemma race_settled_same (sel : Selection) (t : Z) :
  race_settled net1 event context sel t = race_settled net2 event context sel t.
Proof. unfold race_settled. now rewrite dispatch_settled_same. Qed.

Lemma catch_settled_same (body : option (Z * Result unit)) :
  catch_settled net1 event context body = catch_settled net2 event context body.
Proof.
  destruct body as [[t [[]|[|m]]]|]; simpl; try reflexivity. apply delivery_same.
Qed.

End StatusCodes.

(** X8.  The status code of an accepted PUT is logged and nothing else: two
    networks that answer alike but for the status codes of the requests they
    accept lead to the same PUTs, at the same times, and to the same
    settlement of the entry point. *)
Theorem status_code_is_not_inspected
  (net1 net2 : Network) (factory : ResourceHandlerFactory)
  (logFactory : option LogFactory) (event : Event) (context : Context) (t : Z)
  (Hsame : forall t r, same_up_to_status (net1 t r) (net2 t r)) :
  let run1 := customResourceHelper net1 factory logFactory event context t in
  let run2 := customResourceHelper net2 factory logFactory event context t in
  puts (trace run1) = puts (trace run2) /\ settled run1 = settled run2.
Proof.
  intros run1 run2. unfold run1, run2. rewrite !customResourceHelper_run.
  destruct (active_logger logFactory event context) as [logger|e].
  - destruct (factory logger) as [|lf [rh|e]].
    + split; reflexivity.
    + rewrite !caught_puts, !caught_settled, !race_puts, !race_settles.
      rewrite (race_settled_same net1 net2 Hsame).
      split; [reflexivity | now apply catch_settled_same].
    + rewrite !catch_run_puts, !catch_run_settled.
      split; [reflexivity | now apply catch_settled_same].
  - rewrite !catch_run_puts, !catch_run_settled.
    split; [reflexivity | now apply catch_settled_same].
Qed.

Lemma status_code_is_not_inspected_witness :
  settled (customResourceHelper Sample.accepting
             (Sample.factory (Sample.resolving 25 Sample.result)) None
             (Sample.event (str "Create")) Sample.context 0) =
  settled (customResourceHelper (fun _ _ => Settles 40 (Resolved {| status := 503 |}))
             (Sample.factory (Sample.resolving 25 Sample.result)) None
             (Sample.event (str "Create")) Sample.context 0).
Proof.
  refine (proj2
    (status_code_is_not_inspected Sample.accepting
       (fun _ _ => Settles 40 (Resolved {| status := 503 |}))
       (Sample.factory (Sample.resolving 25 Sample.result)) None
       (Sample.event (str "Create")) Sample.context 0 _)).
  intros t r. reflexivity.
Defined.

(** ** The envelopes of an invocation *)

(** X9.  An invocation sends envelopes of two shapes only.  A SUCCESS
    envelope has the reason "OK" and a PhysicalResourceId that is not empty.
    A FAILED envelope has a reason that is not empty, the PhysicalResourceId
    "None" and the empty object as Data, whatever the event and whatever the
    handlers have returned: the PhysicalResourceId of an Update or Delete
    event is never reported back on failure. *)
Theorem envelopes_have_two_shapes
  (network : Network) (factory : ResourceHandlerFactory)
  (logFactory : option LogFactory) (event : Event) (context : Context) (t : Z) :
  Forall
    (fun p =>
       (exists pid data,
           pid <> [] /\ snd p = request_for event (success_envelope event pid data))
       \/ (exists reason,
             reason <> [] /\ snd p = request_for event (failed_envelope event reason)))
    (puts (trace (customResourceHelper network factory logFactory event context t))).
Proof.
  destruct (customResourceHelper_puts network factory logFactory event context t)
    as (sel & t1 & body & ->).
  apply Forall_app; split.
  - destruct sel as [| |name [|l [[pid data]|e]]]; cbn [dispatch_puts];
      try apply Forall_nil;
      (apply Forall_cons; [|apply Forall_nil]);
      left; rewrite request_success; eexists _, _;
      (split; [apply or_else_none_nonempty | reflexivity]).
  - destruct body as [[t2 [[]|[|m]]]|]; cbn [catch_puts]; try apply Forall_nil.
    apply Forall_cons; [|apply Forall_nil].
    right. rewrite request_failed by apply failure_reason_truthy.
    eexists. split; [|reflexivity].
    apply truthy_nonempty, failure_reason_truthy.
Qed.

(** ** The handlers *)

Lemma select_handler_request_type (event : Event) (context : Context)
  (rh : ResourceHandler) (logger : Logger) (name : HandlerName)
  (b : Behaviour (jsstring * list (jsstring * JSON.value))) :
  select event context rh logger = Handler name b ->
  RequestType event = request_type_of name.
Proof.
  unfold select.
  destruct (Js.eqb (RequestType event) (str "Create")) eqn:Hc.
  { destruct (onCreate rh); [|discriminate].
    intros H. injection H as <- _. now apply eqb_eq. }
  destruct (Js.eqb (RequestType event) (str "Update")) eqn:Hu.
  { destruct (onUpdate rh); [|discriminate].
    intros H. injection H as <- _. now apply eqb_eq. }
  destruct (Js.eqb (RequestType event) (str "Delete")) eqn:Hd.
  { destruct (onDelete rh); [|discriminate].
    intros H. injection H as <- _. now apply eqb_eq. }
  discriminate.
Qed.

Lemma select_registered (event : Event) (context : Context)
  (rh : ResourceHandler) (logger : Logger) (name : HandlerName) :
  RequestType event = request_type_of name ->
  registered rh name ->
  exists b, select event context rh logger = Handler name b.
Proof.
  intros Ht Hr. destruct name; cbn [request_type_of registered] in *.
  - rewrite select_create by exact Ht. destruct (onCreate rh); [eauto | contradiction].
  - rewrite select_update by exact Ht. destruct (onUpdate rh); [eauto | contradiction].
  - rewrite select_delete by exact Ht. destruct (onDelete rh); [eauto | contradiction].
Qed.

(** X10.  An invocation calls at most one handler, and only the one of the
    request type of the event: [onCreate] for "Create", [onUpdate] for
    "Update", [onDelete] for "Delete".  A registered handler of the request
    type is called exactly once, at the moment the handler factory
    resolves. *)
Theorem one_handler_of_the_request_type
  (network : Network) (factory : ResourceHandlerFactory)
  (logFactory : option LogFactory) (event : Event) (context : Context) (t : Z) :
  let run := customResourceHelper network factory logFactory event context t in
  (invocations (trace run) = [] \/
   exists name, invocations (trace run) = [name] /\
                RequestType event = request_type_of name)
  /\ (forall logger lf rh name,
        active_logger logFactory event context = Resolved logger ->
        factory logger = Settles lf (Resolved rh) ->
        RequestType event = request_type_of name ->
        registered rh name ->
        invocations (trace run) = [name] /\
        In (t + Z.of_N lf, Invoke name) (trace run)).
Proof.
  intros run. split.
  - unfold run. rewrite customResourceHelper_run.
    destruct (active_logger logFactory event context) as [logger|e].
    + destruct (factory logger) as [|lf [rh|e]].
      * now left.
      * rewrite caught_invocations, race_invocations.
        destruct (select event context rh logger) as [| |name b] eqn:Hsel; auto.
        right. exists name. split; [reflexivity|].
        now apply (select_handler_request_type _ _ _ _ _ _ Hsel).
      * left. apply catch_run_invocations.
    + left. apply catch_run_invocations.
  - intros logger lf rh name Hl Hf Ht Hr. unfold run.
    destruct (select_registered event context rh logger name Ht Hr) as [b Hsel].
    split.
    + now rewrite (invocation_invocations _ _ _ _ _ _ _ _ Hl Hf), Hsel.
    + rewrite customResourceHelper_run, Hl, Hf, ready_trace, Hsel.
      apply in_or_app. left.
      destruct b as [|l [[pid data]|e]]; cbn [dispatch_run trace];
        right; now left.
Qed.

Lemma one_handler_of_the_request_type_witness :
  invocations
    (trace (customResourceHelper Sample.accepting
              (Sample.factory (Sample.resolving 25 Sample.result)) None
              (Sample.event (str "Update")) Sample.context 0)) = [OnUpdate].
Proof.
  refine (proj1 (proj2
    (one_handler_of_the_request_type Sample.accepting
       (Sample.factory (Sample.resolving 25 Sample.result)) None
       (Sample.event (str "Update")) Sample.context 0)
    (DefaultLogger (Sample.event (str "Update"))) 0%N
    (Sample.resolving 25 Sample.result) OnUpdate
    eq_refl eq_refl eq_refl _)).
  discriminate.
Defined.

(** ** Late answers *)

(** X11.  With 3000 ms or less of remaining time when the race starts, the
    timer of the guard gets a delay of zero or less and fires one millisecond
    later: unless the dispatcher has settled by then, the invocation sends the
    FAILED envelope "Execution timed out" at that moment, whatever the handler
    would have returned later. *)
Theorem short_remaining_time_times_out
  (network : Network) (factory : ResourceHandlerFactory)
  (logFactory : option LogFactory) (event : Event) (context : Context)
  (logger : Logger) (lf : N) (rh : ResourceHandler) (t : Z)
  (Hlogger : active_logger logFactory event context = Resolved logger)
  (Hfactory : factory logger = Settles lf (Resolved rh))
  (Hshort : getRemainingTimeInMillis context (t + Z.of_N lf) <= 3000)
  (Hslow : forall th r,
     settled (handleRessource network event context rh logger (t + Z.of_N lf)) =
     Some (th, r) -> t + Z.of_N lf + 1 < th) :
  let t1 := t + Z.of_N lf in
  let run := customResourceHelper network factory logFactory event context t in
  settled (handleTimeout context logger t1) = Some (t1 + 1, Rejected timeout_error)
  /\ sent_with FAILED (trace run) =
       [(t1 + 1, request_for event (failed_envelope event (str "Execution timed out")))].
Proof.
  intros t1 run.
  assert (Hd : deadline context t1 = t1 + 1).
  { unfold deadline, timer_delay. fold t1 in Hshort.
    destruct (1 <=? getRemainingTimeInMillis context t1 - 3000) eqn:H1;
      [apply Z.leb_le in H1; lia | reflexivity]. }
  split.
  - now rewrite handleTimeout_run, Hd.
  - unfold run. rewrite (invocation_failures _ _ _ _ _ _ _ _ Hlogger Hfactory).
    rewrite handleRessource_run, dispatch_run_settled in Hslow.
    unfold race_settled. fold t1 in Hslow |- *. rewrite Hd.
    destruct (dispatch_settled _ _ _ _ _) as [[th r]|].
    + rewrite first_settled_right by now apply (Hslow th r).
      reflexivity.
    + reflexivity.
Qed.

Lemma short_remaining_time_times_out_witness :
  sent_with FAILED
    (trace (customResourceHelper Sample.accepting
              (Sample.factory (Sample.resolving 25 Sample.result)) None
              (Sample.event (str "Create"))
              {| logStreamName := str "stream";
                 getRemainingTimeInMillis := fun t => 2000 - t |} 0)) =
  [(1, request_for (Sample.event (str "Create"))
         (failed_envelope (Sample.event (str "Create")) (str "Execution timed out")))].
Proof.
  refine (proj2
    (short_remaining_time_times_out Sample.accepting
       (Sample.factory (Sample.resolving 25 Sample.result)) None
       (Sample.event (str "Create"))
       {| logStreamName := str "stream";
          getRemainingTimeInMillis := fun t => 2000 - t |}
       (DefaultLogger (Sample.event (str "Create"))) 0
       (Sample.resolving 25 Sample.result) 0 eq_refl eq_refl _ _)).
  - vm_compute. discriminate.
  - intros th r H. vm_compute in H. injection H as <- _. reflexivity.
Defined.

(** X12.  When the answer to the PUT of the SUCCESS envelope has not arrived
    by the time the guard fires (the network is slow or silent, or the handler
    itself resolved after the deadline), the invocation makes two callbacks:
    the FAILED envelope "Execution timed out" is sent at the deadline as well,
    and the promise of the entry point settles as that PUT does. *)
Theorem late_success_answer_gives_two_callbacks
  (network : Network) (factory : ResourceHandlerFactory)
  (logFactory : option LogFactory) (event : Event) (context : Context)
  (logger : Logger) (lf : N) (rh : ResourceHandler) (t ts : Z) (p : PutRequest)
  (Hlogger : active_logger logFactory event context = Resolved logger)
  (Hfactory : factory logger = Settles lf (Resolved rh))
  (Hsent : sent_with SUCCESS
             (trace (customResourceHelper network factory logFactory event context t)) =
           [(ts, p)])
  (Hlate : network ts p = Pending \/
           exists l r, network ts p = Settles l r /\
                       deadline context (t + Z.of_N lf) < ts + Z.of_N l) :
  let run := customResourceHelper network factory logFactory event context t in
  let timeout :=
    request_for event (failed_envelope event (str "Execution timed out")) in
  puts (trace run) = [(ts, p); (deadline context (t + Z.of_N lf), timeout)]
  /\ settled run =
       delivery network event context (failed_details (str "Execution timed out"))
         (deadline context (t + Z.of_N lf)).
Proof.
  intros run timeout. unfold run in *.
  rewrite (invocation_successes _ _ _ _ _ _ _ _ Hlogger Hfactory) in Hsent.
  rewrite (invocation_puts _ _ _ _ _ _ _ _ Hlogger Hfactory).
  rewrite (invocation_settled _ _ _ _ _ _ _ _ Hlogger Hfactory).
  destruct (dispatch_puts_singleton network _ _ _ _ _ _ Hsent) as (d & -> & Hd).
  rewrite Hsent.
  assert (Hrace : race_settled network event context (select event context rh logger)
                    (t + Z.of_N lf) =
                  Some (deadline context (t + Z.of_N lf), Rejected timeout_error)).
  { unfold race_settled. rewrite Hd. unfold delivery.
    destruct Hlate as [Hp|(l & r & Hp & Hafter)]; rewrite Hp.
    - reflexivity.
    - destruct r as [a|e]; now rewrite first_settled_right. }
  rewrite Hrace. split; reflexivity.
Qed.

Lemma late_success_answer_gives_two_callbacks_witness :
  List.map fst
    (puts (trace (customResourceHelper Sample.accepting
                    (Sample.factory (Sample.resolving 28000 Sample.result)) None
                    (Sample.event (str "Create")) Sample.context 0))) =
  [28000; 27000].
Proof.
  refine (f_equal (List.map fst) (proj1
    (late_success_answer_gives_two_callbacks Sample.accepting
       (Sample.factory (Sample.resolving 28000 Sample.result)) None
       (Sample.event (str "Create")) Sample.context
       (DefaultLogger (Sample.event (str "Create"))) 0
       (Sample.resolving 28000 Sample.result) 0 28000
       (request_for (Sample.event (str "Create"))
          (success_envelope (Sample.event (str "Create")) (str "resource-2")
             [(str "Endpoint", JSON.String (str "db.local"))]))
       eq_refl eq_refl _ _))).
  - vm_compute. reflexivity.
  - right. exists 40%N, (Resolved {| status := 200 |}). split; vm_compute; reflexivity.
Defined.

(** ** The content length *)

Lemma utf8_length_bounds_upto (n : nat) (s : jsstring) :
  (List.length s <= n)%nat ->
  Js.length s <= Js.utf8_length s <= 3 * Js.length s.
Proof.
  unfold Js.length. revert s. induction n as [|n IH]; intros [|c r] H;
    cbn [List.length] in H; try (simpl; lia).
  assert (Hr : Z.of_nat (List.length r) <= Js.utf8_length r <= 3 * Z.of_nat (List.length r))
    by (apply IH; lia).
  cbn [Js.utf8_length List.length].
  destruct (N.ltb c 128); [lia|].
  destruct (N.ltb c 2048); [lia|].
  destruct (Js.is_high_surrogate c); [|lia].
  destruct r as [|d r']; [simpl; lia|].
  destruct (Js.is_low_surrogate d); [|lia].
  assert (Hr' : Z.of_nat (List.length r') <= Js.utf8_length r' <=
                3 * Z.of_nat (List.length r'))
    by (apply IH; cbn [List.length] in H; lia).
  cbn [List.length]. lia.
Qed.

Lemma utf8_length_bounds (s : jsstring) :
  Js.length s <= Js.utf8_length s <= 3 * Js.length s.
Proof. now apply (utf8_length_bounds_upto (List.length s)). Qed.

(** X13.  The content length of a PUT never exceeds the size of its body in
    bytes, and the body is at most three times as long as the header says. *)
Theorem content_length_is_at_most_the_body_size
  (network : Network) (factory : ResourceHandlerFactory)
  (logFactory : option LogFactory) (event : Event) (context : Context) (t : Z) :
  Forall
    (fun p =>
       content_length (snd p) <= Js.utf8_length (put_body (snd p))
       <= 3 * content_length (snd p))
    (puts (trace (customResourceHelper network factory logFactory event context t))).
Proof.
  destruct (customResourceHelper_puts network factory logFactory event context t)
    as (sel & t1 & body & ->).
  apply Forall_app; split.
  - destruct sel as [| |name [|l [[pid data]|e]]]; cbn [dispatch_puts];
      repeat constructor; apply utf8_length_bounds.
  - destruct body as [[t2 [[]|[|m]]]|]; cbn [catch_puts];
      repeat constructor; apply utf8_length_bounds.
Qed.

(** ASCII text stays ASCII in JSON. *)

Lemma ascii_string_app (a b : jsstring) :
  ascii_string a -> ascii_string b -> ascii_string (a ++ b).
Proof. intros Ha Hb. apply Forall_app. now split. Qed.

Lemma hex_digit_ascii (n : N) : (n < 16)%N -> (JSON.hex_digit n < 128)%N.
Proof.
  intros H. unfold JSON.hex_digit. destruct (N.ltb n 10); lia.
Qed.

Lemma unicode_escape_ascii (c : N) : ascii_string (JSON.unicode_escape c).
Proof.
  unfold JSON.unicode_escape, ascii_string.
  repeat constructor; apply hex_digit_ascii; apply N.mod_lt; discriminate.
Qed.

Lemma quote_unit_ascii (c : N) : (c < 128)%N -> ascii_string (JSON.quote_unit c).
Proof.
  intros H. unfold JSON.quote_unit.
  repeat match goal with
         | |- ascii_string (if ?b then _ else _) => destruct b
         end;
    try apply unicode_escape_ascii; unfold ascii_string; repeat constructor; exact H.
Qed.

Lemma quote_chars_ascii (s : jsstring) :
  ascii_string s -> ascii_string (JSON.quote_chars s).
Proof.
  induction 1 as [|c r Hc Hr IH]; [constructor|].
  cbn [JSON.quote_chars].
  assert (Hs : Js.is_high_surrogate c = false).
  { unfold Js.is_high_surrogate. apply andb_false_iff. left. apply N.leb_gt. lia. }
  rewrite Hs. apply ascii_string_app; [now apply quote_unit_ascii | exact IH].
Qed.

Lemma quote_ascii (s : jsstring) : ascii_string s -> ascii_string (JSON.quote s).
Proof.
  intros H. unfold JSON.quote.
  apply ascii_string_app; [repeat constructor|].
  apply ascii_string_app; [now apply quote_chars_ascii | repeat constructor].
Qed.

Lemma join_ascii (parts : list jsstring) :
  Forall ascii_string parts -> ascii_string (JSON.join parts).
Proof.
  induction 1 as [|p rest Hp Hrest IH]; [constructor|].
  cbn [JSON.join]. destruct rest as [|q rest']; [exact Hp|].
  apply ascii_string_app; [exact Hp|].
  apply ascii_string_app; [repeat constructor | exact IH].
Qed.

Lemma stringify_ascii : forall v : JSON.value,
  ascii_value v -> ascii_string (JSON.stringify v).
Proof.
  fix IH 1. intros [|b|s|items|properties] H; cbn [JSON.stringify].
  - unfold ascii_string. repeat constructor.
  - destruct b; unfold ascii_string; repeat constructor.
  - now apply quote_ascii.
  - apply ascii_string_app; [repeat constructor|].
    apply ascii_string_app; [|repeat constructor].
    apply join_ascii. cbn [ascii_value] in H.
    induction items as [|x r IHr]; [constructor|].
    destruct H as [Hx Hr]. constructor; [now apply IH | now apply IHr].
  - apply ascii_string_app; [repeat constructor|].
    apply ascii_string_app; [|repeat constructor].
    apply join_ascii. cbn [ascii_value] in H.
    induction properties as [|[k x] r IHr]; [constructor|].
    destruct H as (Hk & Hx & Hr). constructor; [|now apply IHr].
    cbn [fst snd] in *.
    apply ascii_string_app; [now apply quote_ascii|].
    apply ascii_string_app; [repeat constructor | now apply IH].
Qed.

Lemma str_ascii_status (s : ResponseStatus) : ascii_string (status_string s).
Proof. destruct s; unfold ascii_string; repeat constructor. Qed.

Lemma or_else_ascii (a : option jsstring) (b : jsstring) :
  ascii_option a -> ascii_string b -> ascii_string (Js.or_else a b).
Proof.
  intros Ha Hb. destruct a as [s|]; cbn [Js.or_else]; [|exact Hb].
  destruct (Js.truthy s); [exact Ha | exact Hb].
Qed.

Lemma responseObject_ascii (event : Event) (context : Context) (d : Details.t) :
  ascii_inputs event context d -> ascii_value (responseObject event context d).
Proof.
  intros (Hs & Hr & Hl & Hn & Hreason & Hpid & Hdata).
  unfold responseObject. cbn [ascii_value fst snd].
  repeat split;
    try (unfold ascii_string; repeat constructor; fail);
    try assumption.
  - apply str_ascii_status.
  - apply or_else_ascii; [exact Hreason|].
    apply ascii_string_app; [unfold ascii_string; repeat constructor | exact Hn].
  - apply or_else_ascii; [exact Hpid | unfold ascii_string; repeat constructor].
  - destruct (Details.responseData d) as [data|]; [exact Hdata | exact I].
Qed.

(** X14.  When the ids of the event, the name of the log stream and the
    reason, the id and the data given to [sendResponse] are ASCII, the body of
    its PUT is ASCII and the content length is the size of the body in
    bytes. *)
Theorem content_length_is_exact_on_ascii
  (network : Network) (event : Event) (context : Context) (d : Details.t)
  (logger : Logger) (t : Z)
  (Hascii : ascii_inputs event context d) :
  exists request,
    puts (trace (sendResponse network event context d logger t)) = [(t, request)]
    /\ ascii_string (put_body request)
    /\ content_length request = Js.utf8_length (put_body request).
Proof.
  exists (request event context d). rewrite sendResponse_puts.
  assert (H : ascii_string (JSON.stringify (responseObject event context d)))
    by now apply stringify_ascii, responseObject_ascii.
  repeat split; [exact H|].
  cbn [request request_for content_length put_body].
  symmetry. now apply utf8_length_ascii.
Qed.

Lemma content_length_is_exact_on_ascii_witness :
  exists request,
    puts (trace (sendResponse Sample.accepting (Sample.event (str "Create"))
                   Sample.context
                   (success_details (str "resource-2")
                      [(str "Endpoint", JSON.String (str "db.local"))])
                   (DefaultLogger (Sample.event (str "Create"))) 0)) = [(0, request)]
    /\ ascii_string (put_body request)
    /\ content_length request = Js.utf8_length (put_body request).
Proof.
  refine (content_length_is_exact_on_ascii Sample.accepting
            (Sample.event (str "Create")) Sample.context
            (success_details (str "resource-2")
               [(str "Endpoint", JSON.String (str "db.local"))])
            (DefaultLogger (Sample.event (str "Create"))) 0 _).
  unfold ascii_inputs, ascii_properties, ascii_option, ascii_string.
  cbn [ascii_value fst snd]. unfold ascii_string.
  repeat split; repeat constructor.
Defined.

(** ** Callbacks without an answer *)

(** X15.  Nothing bounds the wait for the answer to the PUT of the FAILED
    envelope: if the network never answers it, the promise of the entry point
    never settles. *)
Theorem unanswered_failed_put_hangs
  (network : Network) (factory : ResourceHandlerFactory)
  (logFactory : option LogFactory) (event : Event) (context : Context)
  (t tf : Z) (p : PutRequest) :
  let run := customResourceHelper network factory logFactory event context t in
  sent_with FAILED (trace run) = [(tf, p)] ->
  network tf p = Pending ->
  settled run = None.
Proof.
  intros run Hsent Hnet.
  destruct (customResourceHelper_outcome network factory logFactory event context t)
    as (sel & t1 & body & _ & _ & Hf & Hs).
  fold run in Hf, Hs. rewrite Hf in Hsent.
  destruct (catch_puts_singleton _ _ _ _ _ Hsent) as (m & -> & ->).
  rewrite Hs. cbn [catch_settled]. unfold delivery. now rewrite Hnet.
Qed.

Lemma unanswered_failed_put_hangs_witness :
  settled (customResourceHelper (fun _ _ => Pending)
             (Sample.factory (Sample.rejecting 25 (Error (str "boom")))) None
             (Sample.event (str "Create")) Sample.context 0) = None.
Proof.
  exact (unanswered_failed_put_hangs (fun _ _ => Pending)
           (Sample.factory (Sample.rejecting 25 (Error (str "boom")))) None
           (Sample.event (str "Create")) Sample.context 0 25
           (request_for (Sample.event (str "Create"))
              (failed_envelope (Sample.event (str "Create")) (str "boom")))
           eq_refl eq_refl).
Defined.
